(** * AgentaFlow analytics: cost/ROI calculator and CI build analytics

    Shallow embedding of
      - examples/demo/scripts/cost-calculator.py  (class DemoCostCalculator)
      - scripts/monitoring/build-analytics.py
    and the properties of their metric computations.

    Numbers.  Python computes with binary64 floats.  Two layers model it.

    The exact layer (modules [Py], [CostCalculator], [BuildAnalytics])
    reads every Python number as the rational it denotes ([Q], compared
    with [==]) and the arithmetic as exact.  What Python does beyond
    plain arithmetic is written out: division raises
    [ZeroDivisionError] on a zero divisor, [float('inf')] is a separate
    constructor, [round(x, 2)] rounds half to even on the second
    decimal, and a [str] that meets a number in [+] raises [TypeError].
    The statements proved on this layer are those that rounding,
    overflow and underflow leave true: counts, orders, which exception
    is raised, and bounds with a margin.

    The binary64 layer (module [Binary64]) gives the two arithmetic
    functions of the cost calculator on IEEE 754 binary64 itself, with
    the operations of the standard library's [SpecFloat].  It decides
    what the exact layer cannot: where a quotient overflows to [inf]. *)

From Stdlib Require Import QArith Qround Qabs Lqa Lia ZArith List String SpecFloat.
From stdpp Require Import gmap strings list fin_maps.

Local Open Scope string_scope.
Local Open Scope list_scope.
Local Open Scope Q_scope.

(** ** Python values and exceptions *)

Module Py.

(** The exceptions raised by the modelled code. *)
Inductive exn : Set :=
| ZeroDivisionError
| TypeError.

(** A computation that returns or raises. *)
Inductive result (A : Type) : Type :=
| Ok (a : A)
| Raise (e : exn).
Arguments Ok {A} a.
Arguments Raise {A} e.

Definition bind {A B : Type} (m : result A) (k : A -> result B) : result B :=
  match m with
  | Ok a => k a
  | Raise e => Raise e
  end.

(** A dynamically typed value stored in the cost dictionary: a number
    or a string. *)
Inductive value : Type :=
| Num (q : Q)
| Str (s : string).

(** A float that may be the [float('inf')] sentinel. *)
Inductive xfloat : Type :=
| Fin (q : Q)
| PosInf.

(** [x / y]: raises on a zero divisor. *)
Definition div (x y : Q) : result Q :=
  if Qeq_bool y 0 then Raise ZeroDivisionError else Ok (x / y).

(** [s * n] for a string and an int: [n] copies, none when [n <= 0]. *)
Fixpoint str_repeat (s : string) (n : nat) : string :=
  match n with
  | O => EmptyString
  | S k => String.append s (str_repeat s k)
  end.

(** [v * n] with [n] an int. *)
Definition mul_int (v : value) (n : Z) : value :=
  match v with
  | Num q => Num (q * inject_Z n)
  | Str s => Str (str_repeat s (Z.to_nat n))
  end.

(** [v + q] with [q] a float: [str + float] raises [TypeError]. *)
Definition add_float (v : value) (q : Q) : result Q :=
  match v with
  | Num p => Ok (p + q)
  | Str _ => Raise TypeError
  end.

(** [x < y] and [x > y] on numbers. *)
Definition ltb (x y : Q) : bool :=
  match Qcompare x y with Lt => true | _ => false end.
Definition gtb (x y : Q) : bool := ltb y x.

(** [round(x, 2)]: the nearest multiple of 1/100, ties to the even one. *)
Definition round_half_even (x : Q) : Z :=
  let f := Qfloor x in
  match Qcompare (x - inject_Z f) (1 # 2) with
  | Lt => f
  | Gt => (f + 1)%Z
  | Eq => if Z.even f then f else (f + 1)%Z
  end.

Definition round2 (x : Q) : Q := inject_Z (round_half_even (x * 100)) / 100.

(** [sum(l)]: left to right from 0. *)
Definition sum (l : list Q) : Q := fold_left Qplus l 0.

(** [min(l)] and [max(l)] on a non-empty list: the first extremal
    element; on the empty list Python raises, and the callers below
    never get there. *)
Definition min_from (d0 : Q) (l : list Q) : Q :=
  fold_left (fun m d => if ltb d m then d else m) l d0.
Definition max_from (d0 : Q) (l : list Q) : Q :=
  fold_left (fun m d => if gtb d m then d else m) l d0.

End Py.

Notation "'let!' x ':=' m 'in' k" := (Py.bind m (fun x => k))
  (at level 10, x name, m at level 100, k at level 200).

(** ** cost-calculator.py *)

Module CostCalculator.
Import Py.

(** [pricing]: the table of [calculate_gpu_instance_costs]. *)
Definition pricing : gmap string Q :=
  <["p4d.24xlarge" := 3277 # 100]>
  (<["p3.2xlarge" := 306 # 100]>
  (<["g5.2xlarge" := 1212 # 1000]>
  (<["g5.xlarge" := 1006 # 1000]>
  (<["g4dn.4xlarge" := 1204 # 1000]>
  (<["g4dn.2xlarge" := 752 # 1000]>
  (<["g4dn.xlarge" := 526 # 1000]> ∅)))))).

(** One turn of the loop of [calculate_gpu_instance_costs]. *)
Definition cost_entry (hours : Q) (instance_type : string) : value :=
  match pricing !! instance_type with
  | Some p => Num (p * hours)
  | None => Str (String.append "Unknown pricing for " instance_type)
  end.

Definition calculate_gpu_instance_costs
    (instance_types : list string) (hours : Q) : gmap string value :=
  fold_left (fun costs t => <[t := cost_entry hours t]> costs)
            instance_types ∅.

(** The record returned by [calculate_utilization_improvement]. *)
Record UtilizationImprovement : Type := {
  utilization_improvement_percent : Q;
  cost_efficiency_multiplier : Q;
  idle_time_reduction_percent : Q;
  effective_cost_per_work_unit : Q
}.

Definition calculate_utilization_improvement
    (baseline_util optimized_util : Q) : result UtilizationImprovement :=
  let! r := div (optimized_util - baseline_util) baseline_util in
  let improvement_percent := r * 100 in
  let! cost_efficiency := div optimized_util baseline_util in
  let! idle := div (1 - optimized_util) (1 - baseline_util) in
  let idle_time_reduction := (1 - idle) * 100 in
  let! per_unit := div 1 cost_efficiency in
  Ok {| utilization_improvement_percent := improvement_percent;
        cost_efficiency_multiplier := cost_efficiency;
        idle_time_reduction_percent := idle_time_reduction;
        effective_cost_per_work_unit := per_unit |}.

(** The record returned by [generate_roi_analysis]. *)
Record ROIAnalysis : Type := {
  current_utilization : Q;
  improved_utilization : Q;
  cost_reduction_percent : Q;
  monthly_savings : Q;
  annual_savings : Q;
  agentaflow_monthly_cost : Q;
  net_monthly_savings : Q;
  payback_period_months : xfloat;
  annual_roi_percent : Q
}.

Definition generate_roi_analysis
    (monthly_gpu_spend utilization_improvement : Q) : result ROIAnalysis :=
  let current_efficiency := 55 # 100 in
  let! ui := div utilization_improvement 100 in
  let improved_efficiency := current_efficiency * (1 + ui) in
  let! cr := div (improved_efficiency - current_efficiency) current_efficiency in
  let cost_reduction := cr * 100 in
  let! crf := div cost_reduction 100 in
  let savings := monthly_gpu_spend * crf in
  let annual := savings * 12 in
  let monthly_cost := 50 in
  let net := savings - monthly_cost in
  let! roi_months :=
    (if gtb savings 0
     then let! m := div monthly_cost savings in Ok (Fin m)
     else Ok PosInf) in
  let! annual_roi :=
    (if gtb savings 0
     then let! a := div annual (monthly_cost * 12) in Ok (a * 100)
     else Ok 0) in
  Ok {| current_utilization := current_efficiency * 100;
        improved_utilization := improved_efficiency * 100;
        cost_reduction_percent := cost_reduction;
        monthly_savings := savings;
        annual_savings := annual;
        agentaflow_monthly_cost := monthly_cost;
        net_monthly_savings := net;
        payback_period_months := roi_months;
        annual_roi_percent := annual_roi |}.

(** [demo_config]: a dict read with [.get(key, default)]; a field is
    [None] when its key is absent. *)
Record DemoConfig : Type := {
  duration_hours : option Q;
  instance_type : option string;
  node_count : option Z;
  baseline_utilization : option Q;
  optimized_utilization : option Q;
  monthly_gpu_spend : option Q
}.

(** [report['calculations']['infrastructure_costs']]. *)
Record InfrastructureCosts : Type := {
  gpu_instances : value;
  eks_control_plane : Q;
  monitoring_stack : Q;
  networking : Q;
  storage : Q;
  total : Q
}.

(** The report, without its wall-clock [timestamp]. *)
Record DemoReport : Type := {
  demo_info : DemoConfig;
  infrastructure_costs : InfrastructureCosts;
  performance_improvements : UtilizationImprovement;
  roi_analysis : ROIAnalysis
}.

(** Lines 121-146 of [generate_demo_report]: the cost block. *)
Definition demo_infrastructure_costs (demo_config : DemoConfig)
    : result InfrastructureCosts :=
  let gpu_hours := default 8 (duration_hours demo_config) in
  let itype := default "g4dn.xlarge" (instance_type demo_config) in
  let nodes := default 2%Z (node_count demo_config) in
  let instance_costs := calculate_gpu_instance_costs [itype] gpu_hours in
  let total_gpu_cost := mul_int (default (Num 0) (instance_costs !! itype)) nodes in
  let eks_cost := (10 # 100) * gpu_hours in
  let monitoring_cost := 5 in
  let networking_cost := 2 in
  let storage_cost := 3 in
  let! s := add_float total_gpu_cost eks_cost in
  let total_demo_cost := s + monitoring_cost + networking_cost + storage_cost in
  Ok {| gpu_instances := total_gpu_cost;
        eks_control_plane := eks_cost;
        monitoring_stack := monitoring_cost;
        networking := networking_cost;
        storage := storage_cost;
        total := total_demo_cost |}.

Definition generate_demo_report (demo_config : DemoConfig) : result DemoReport :=
  let! costs := demo_infrastructure_costs demo_config in
  let baseline_util := default 55 (baseline_utilization demo_config) in
  let optimized_util := default 85 (optimized_utilization demo_config) in
  let! b := div baseline_util 100 in
  let! o := div optimized_util 100 in
  let! improvement_metrics := calculate_utilization_improvement b o in
  let spend := default 10000 (monthly_gpu_spend demo_config) in
  let! roi :=
    generate_roi_analysis spend
      (utilization_improvement_percent improvement_metrics) in
  Ok {| demo_info := demo_config;
        infrastructure_costs := costs;
        performance_improvements := improvement_metrics;
        roi_analysis := roi |}.

(** The configuration [main] starts from (lines 184-193), with the
    default [--monthly-spend]. *)
Definition default_demo_config : DemoConfig :=
  {| duration_hours := Some 8;
     instance_type := Some "g4dn.xlarge";
     node_count := Some 2%Z;
     baseline_utilization := Some 55;
     optimized_utilization := Some 85;
     monthly_gpu_spend := Some 10000 |}.

End CostCalculator.

(** ** build-analytics.py *)

Module BuildAnalytics.
Import Py.

(** A workflow run as the provider returns it.  A timestamp is the
    instant that [datetime.fromisoformat] reads from the field, in
    microseconds; [None] is a field that is null or empty (falsy). *)
Record run : Type := {
  conclusion : string;
  created_at : option Z;
  updated_at : option Z
}.

(** [timedelta.total_seconds()] of a difference in microseconds. *)
Definition total_seconds (td : Z) : Q := td # 1000000.

(** [for x in l: s = body(s, x)], stopping at the first exception. *)
Fixpoint for_each {A S : Type} (body : S -> A -> result S)
    (l : list A) (s : S) : result S :=
  match l with
  | [] => Ok s
  | x :: tl => let! s' := body s x in for_each body tl s'
  end.

(** Body of the duration loops: lines 54-58 and 90-93. *)
Definition append_duration (durations : list Q) (r : run) : result (list Q) :=
  match created_at r, updated_at r with
  | Some created, Some updated =>
      let! duration := div (total_seconds (updated - created)) 60 in
      Ok (durations ++ [duration])
  | _, _ => Ok durations
  end.

Definition is_success (r : run) : bool := String.eqb (conclusion r) "success".
Definition is_failure (r : run) : bool := String.eqb (conclusion r) "failure".

(** [failure_reasons[key] += 1] on a [defaultdict(int)]. *)
Definition tally (m : gmap string nat) (r : run) : gmap string nat :=
  <[conclusion r := S (default O (m !! conclusion r))]> m.

(** The dict returned by [analyze_build_performance]. *)
Record BuildMetrics : Type := {
  total_runs : nat;
  successful_runs : nat;
  failed_runs : nat;
  success_rate : Q;
  avg_duration_minutes : Q;
  min_duration_minutes : Q;
  max_duration_minutes : Q;
  failure_reasons : gmap string nat
}.

(** [len(l)] as a number. *)
Definition len {A : Type} (l : list A) : Q := inject_Z (Z.of_nat (length l)).

(** Lines 52-58: the duration loop of [analyze_build_performance]. *)
Definition build_durations (successful : list run) : result (list Q) :=
  for_each append_duration successful [].

Definition analyze_build_performance (runs : list run) : result BuildMetrics :=
  let total := length runs in
  let successful := List.filter is_success runs in
  let failed := List.filter is_failure runs in
  let! durations := build_durations successful in
  let! avg_duration :=
    match durations with
    | [] => Ok 0
    | _ :: _ => div (sum durations) (len durations)
    end in
  let min_duration :=
    match durations with [] => 0 | d :: tl => min_from d tl end in
  let max_duration :=
    match durations with [] => 0 | d :: tl => max_from d tl end in
  let! rate :=
    (if (0 <? total)%nat
     then let! r := div (len successful) (len runs) in Ok (r * 100)
     else Ok 0) in
  let reasons := fold_left tally failed ∅ in
  Ok {| total_runs := total;
        successful_runs := length successful;
        failed_runs := length failed;
        success_rate := round2 rate;
        avg_duration_minutes := round2 avg_duration;
        min_duration_minutes := round2 min_duration;
        max_duration_minutes := round2 max_duration;
        failure_reasons := reasons |}.

(** The dict returned by [calculate_cache_efficiency]; the two counts
    are absent from the no-data answer. *)
Record CacheMetrics : Type := {
  cache_hit_rate_estimate : Q;
  fast_builds : option nat;
  total_builds : option nat;
  note : string
}.

(** Body of the loop of lines 88-93. *)
Definition append_success_duration (durations : list Q) (r : run)
    : result (list Q) :=
  if is_success r then append_duration durations r else Ok durations.

(** Lines 95-107: the estimate from the duration sample. *)
Definition cache_efficiency_of (durations : list Q) : result CacheMetrics :=
  match durations with
  | [] => Ok {| cache_hit_rate_estimate := 0;
                fast_builds := None;
                total_builds := None;
                note := "No data available" |}
  | _ :: _ =>
      let! avg_duration := div (sum durations) (len durations) in
      let fast := List.filter (fun d => ltb d (avg_duration * (8 # 10))) durations in
      let! r := div (len fast) (len durations) in
      let cache_hit_rate := r * 100 in
      Ok {| cache_hit_rate_estimate := round2 cache_hit_rate;
            fast_builds := Some (length fast);
            total_builds := Some (length durations);
            note := "Estimated based on build duration variance" |}
  end.

(** Lines 87-93: the duration loop of [calculate_cache_efficiency]. *)
Definition cache_durations (runs : list run) : result (list Q) :=
  for_each append_success_duration runs [].

Definition calculate_cache_efficiency (runs : list run) : result CacheMetrics :=
  let! durations := cache_durations runs in
  cache_efficiency_of durations.

(** The advisories of [generate_recommendations], each with the number
    its text quotes. *)
Inductive recommendation : Type :=
| InvestigateFailures (rate : Q)
    (* "Success rate is {rate}% - investigate common failure patterns" *)
| OptimizeBuildTime (minutes : Q)
    (* "Average build time is {minutes} minutes - consider optimization" *)
| ReviewCachingStrategy
    (* "Low cache hit rate detected - review caching strategy" *)
| AllWithinRange.
    (* "All metrics within acceptable ranges" *)

Definition generate_recommendations (metrics : BuildMetrics)
    : result (list recommendation) :=
  let recommendations := [] in
  let recommendations :=
    if ltb (success_rate metrics) 90
    then recommendations ++ [InvestigateFailures (success_rate metrics)]
    else recommendations in
  let recommendations :=
    if gtb (avg_duration_minutes metrics) 15
    then recommendations ++ [OptimizeBuildTime (avg_duration_minutes metrics)]
    else recommendations in
  let! cache_metrics := calculate_cache_efficiency [] in
  let recommendations :=
    if ltb (cache_hit_rate_estimate cache_metrics) 80
    then recommendations ++ [ReviewCachingStrategy]
    else recommendations in
  let recommendations :=
    match recommendations with
    | [] => recommendations ++ [AllWithinRange]
    | _ :: _ => recommendations
    end in
  Ok recommendations.

End BuildAnalytics.

(** ** The specification's wording of the duration sample and of the
    cache heuristic, to compare the code with *)

Module Spec.
Import BuildAnalytics.

(** "duration is derived as updated_at - created_at and is only defined
    when conclusion = success and both timestamps are present", in
    minutes. *)
Definition duration (r : run) : option Q :=
  if decide (conclusion r = "success") then
    match created_at r, updated_at r with
    | Some created, Some updated => Some (total_seconds (updated - created) / 60)
    | _, _ => None
    end
  else None.

(** The durations that are defined, in the order of the runs. *)
Definition duration_sample (runs : list run) : list Q := omap duration runs.

(** "the mean of durations". *)
Definition mean (durations : list Q) : Q :=
  fold_right Qplus 0 durations / inject_Z (Z.of_nat (length durations)).

(** "classify a run as fast if duration < 0.8 * mean": how many are. *)
Fixpoint fast_count (m : Q) (durations : list Q) : nat :=
  match durations with
  | [] => O
  | d :: tl =>
      if Qlt_le_dec d ((8 # 10) * m) then S (fast_count m tl) else fast_count m tl
  end.

(** How many runs have the conclusion [c]. *)
Fixpoint count_conclusion (c : string) (runs : list run) : nat :=
  match runs with
  | [] => O
  | r :: tl =>
      if decide (conclusion r = c)
      then S (count_conclusion c tl) else count_conclusion c tl
  end.



End Spec.

(** ** The arithmetic functions of cost-calculator.py on binary64 *)

Module Binary64.

(** Binary64: 53 bits of precision, exponents up to 1024. *)
Definition prec : Z := 53.
Definition emax : Z := 1024.

Abbreviation float := spec_float.

(** An [int] where a float is expected; exact below 2^53. *)
Definition of_int (z : Z) : float := binary_normalize prec emax z 0 false.

Definition add : float -> float -> float := SFadd prec emax.
Definition sub : float -> float -> float := SFsub prec emax.
Definition mul : float -> float -> float := SFmul prec emax.
Definition quot : float -> float -> float := SFdiv prec emax.

(** A decimal literal [n/d], as Python reads it: the float nearest to
    the quotient ([n] and [d] below 2^53). *)
Definition lit (n d : Z) : float := quot (of_int n) (of_int d).

Definition zero : float := of_int 0.
Definition infinity : float := S754_infinity false.

(** [x < y], [x <= y] and [x == y]: false when either is a NaN. *)
Definition ltb (x y : float) : bool := SFltb x y.
Definition leb (x y : float) : bool := SFleb x y.
Definition eqb (x y : float) : bool := SFeqb x y.

(** [x / y]: raises on a divisor equal to zero (0.0 or -0.0); an
    overflow gives [inf] and an underflow 0.0, without raising. *)
Definition div (x y : float) : Py.result float :=
  if eqb y zero then Py.Raise Py.ZeroDivisionError else Py.Ok (quot x y).

(** The record returned by [calculate_utilization_improvement]. *)
Record UtilizationImprovement : Type := {
  utilization_improvement_percent : float;
  cost_efficiency_multiplier : float;
  idle_time_reduction_percent : float;
  effective_cost_per_work_unit : float
}.

Definition calculate_utilization_improvement
    (baseline_util optimized_util : float) : Py.result UtilizationImprovement :=
  let! r := div (sub optimized_util baseline_util) baseline_util in
  let improvement_percent := mul r (of_int 100) in
  let! cost_efficiency := div optimized_util baseline_util in
  let! idle := div (sub (of_int 1) optimized_util) (sub (of_int 1) baseline_util) in
  let idle_time_reduction := mul (sub (of_int 1) idle) (of_int 100) in
  let! per_unit := div (of_int 1) cost_efficiency in
  Py.Ok {| utilization_improvement_percent := improvement_percent;
           cost_efficiency_multiplier := cost_efficiency;
           idle_time_reduction_percent := idle_time_reduction;
           effective_cost_per_work_unit := per_unit |}.

(** The record returned by [generate_roi_analysis]. *)
Record ROIAnalysis : Type := {
  current_utilization : float;
  improved_utilization : float;
  cost_reduction_percent : float;
  monthly_savings : float;
  annual_savings : float;
  agentaflow_monthly_cost : Z;
  net_monthly_savings : float;
  payback_period_months : float;
  annual_roi_percent : float
}.

Definition generate_roi_analysis
    (monthly_gpu_spend utilization_improvement : float) : Py.result ROIAnalysis :=
  let current_efficiency := lit 55 100 in
  let! ui := div utilization_improvement (of_int 100) in
  let improved_efficiency := mul current_efficiency (add (of_int 1) ui) in
  let! cr := div (sub improved_efficiency current_efficiency) current_efficiency in
  let cost_reduction := mul cr (of_int 100) in
  let! crf := div cost_reduction (of_int 100) in
  let savings := mul monthly_gpu_spend crf in
  let annual := mul savings (of_int 12) in
  let monthly_cost := 50%Z in
  let net := sub savings (of_int monthly_cost) in
  let! roi_months :=
    (if ltb zero savings
     then div (of_int monthly_cost) savings
     else Py.Ok infinity) in
  let! annual_roi :=
    (if ltb zero savings
     then let! a := div annual (of_int (monthly_cost * 12)) in
          Py.Ok (mul a (of_int 100))
     else Py.Ok zero) in
  Py.Ok {| current_utilization := mul current_efficiency (of_int 100);
           improved_utilization := mul improved_efficiency (of_int 100);
           cost_reduction_percent := cost_reduction;
           monthly_savings := savings;
           annual_savings := annual;
           agentaflow_monthly_cost := monthly_cost;
           net_monthly_savings := net;
           payback_period_months := roi_months;
           annual_roi_percent := annual_roi |}.

(** The test of line 99 of build-analytics.py, [d < avg_duration * 0.8]. *)
Definition is_fast (d avg_duration : float) : bool :=
  ltb d (mul avg_duration (lit 8 10)).

(** The float 2024 * 2^-1074, which Python writes 1e-320. *)
Definition tiny : float := S754_finite false 2024 (-1074).

End Binary64.

(** ** Sample inputs *)

Module Examples.
Import BuildAnalytics.

(** A run that took [minutes] minutes, with the given conclusion. *)
Definition run_of (c : string) (minutes : Z) : run :=
  {| conclusion := c;
     created_at := Some 0%Z;
     updated_at := Some (minutes * 60000000)%Z |}.

(** One success in three runs. *)
Definition one_in_three : list run :=
  [run_of "success" 1; run_of "failure" 1; run_of "failure" 1].

(** Ten successes: nine of two minutes and one of thirty. *)
Definition healthy_runs : list run :=
  repeat (run_of "success" 2) 9 ++ [run_of "success" 30].

(** Successes of 1, 10 and 10 minutes. *)
Definition one_fast_of_three : list run :=
  [run_of "success" 1; run_of "success" 10; run_of "success" 10].

(** Nine successes of 10 minutes and one of 2. *)
Definition nine_slow_one_fast : list run :=
  repeat (run_of "success" 10) 9 ++ [run_of "success" 2].

(** 20000 successes that took no time and one of a minute. *)
Definition many_instant_one_slow : list run :=
  repeat (run_of "success" 0) (Z.to_nat 20000) ++ [run_of "success" 1].

End Examples.

(** ** The entry points *)

(** [main] of cost-calculator.py, lines 181-206: the configuration it
    builds and the report it asks for.  The keys [cluster_name] and
    [region], which the report does not read, are left out. *)
Module CostMain.
Import Py CostCalculator.

(** One key of [demo_config.update(custom_config)]. *)
Definition update_key {A : Type} (current custom : option A) : option A :=
  match custom with
  | Some v => Some v
  | None => current
  end.

(** [demo_config.update(custom_config)]. *)
Definition update (demo_config custom_config : DemoConfig) : DemoConfig :=
  {| duration_hours :=
       update_key (duration_hours demo_config) (duration_hours custom_config);
     instance_type :=
       update_key (instance_type demo_config) (instance_type custom_config);
     node_count :=
       update_key (node_count demo_config) (node_count custom_config);
     baseline_utilization :=
       update_key (baseline_utilization demo_config)
                  (baseline_utilization custom_config);
     optimized_utilization :=
       update_key (optimized_utilization demo_config)
                  (optimized_utilization custom_config);
     monthly_gpu_spend :=
       update_key (monthly_gpu_spend demo_config)
                  (monthly_gpu_spend custom_config) |}.

(** Lines 184-193, with [args.monthly_spend] as it was given. *)
Definition main_demo_config (monthly_spend : Q) : DemoConfig :=
  {| duration_hours := Some 8;
     instance_type := Some "g4dn.xlarge";
     node_count := Some 2%Z;
     baseline_utilization := Some 55;
     optimized_utilization := Some 85;
     monthly_gpu_spend := Some monthly_spend |}.

(** Lines 184-206.  [custom_config] is the content of the [--config]
    file; [None] when the option is absent or the file is not found. *)
Definition main_report (monthly_spend : Q) (custom_config : option DemoConfig)
    : result DemoReport :=
  let demo_config := main_demo_config monthly_spend in
  let demo_config :=
    match custom_config with
    | Some custom => update demo_config custom
    | None => demo_config
    end in
  generate_demo_report demo_config.

End CostMain.

(** [main] of build-analytics.py, lines 148-195, from the runs that
    [get_workflow_runs] returned. *)
Module AnalyticsMain.
Import Py BuildAnalytics.

(** What the [except Exception] of line 193 catches. *)
Inductive failure : Type :=
| Raised (e : exn)
| KeyError (key : string).

(** What is written to build-analytics.json, without its wall-clock
    [generated_at]. *)
Record Output : Type := {
  metrics : BuildMetrics;
  cache : CacheMetrics;
  recommendations : list recommendation
}.

(** How [main] ends: the file is written, or [sys.exit(1)]. *)
Inductive outcome : Type :=
| Saved (o : Output)
| Exit1 (f : failure).

(** The subscripts of the printed lines find every key of [metrics];
    of [cache_metrics] they read [fast_builds] and then [total_builds]
    (line 170), which the no-data answer does not have. *)
Definition main_after_fetch (runs : list run) : outcome :=
  match analyze_build_performance runs with
  | Raise e => Exit1 (Raised e)
  | Ok m =>
      match calculate_cache_efficiency runs with
      | Raise e => Exit1 (Raised e)
      | Ok cache_metrics =>
          match fast_builds cache_metrics with
          | None => Exit1 (KeyError "fast_builds")
          | Some _ =>
              match total_builds cache_metrics with
              | None => Exit1 (KeyError "total_builds")
              | Some _ =>
                  match generate_recommendations m with
                  | Raise e => Exit1 (Raised e)
                  | Ok recs =>
                      Saved {| metrics := m;
                               cache := cache_metrics;
                               recommendations := recs |}
                  end
              end
          end
      end
  end.

End AnalyticsMain.

(** * Properties *)

Import Py.

(** ** Arithmetic of the Python layer *)

Section PyFacts.

Lemma div_ok (x y : Q) : ~ y == 0 -> div x y = Ok (x / y).
Proof.
  intros Hy. unfold div.
  destruct (Qeq_bool y 0) eqn:E; [|reflexivity].
  apply Qeq_bool_iff in E. contradiction.
Qed.

Lemma div_zero (x y : Q) : y == 0 -> div x y = Raise ZeroDivisionError.
Proof.
  intros Hy. unfold div. apply Qeq_bool_iff in Hy. now rewrite Hy.
Qed.

Lemma div_inv (x y q : Q) : div x y = Ok q -> ~ y == 0 /\ q = x / y.
Proof.
  unfold div. destruct (Qeq_bool y 0) eqn:E; [discriminate|].
  intros [= <-]. split; [|reflexivity].
  intros Hy. apply Qeq_bool_iff in Hy. congruence.
Qed.

Lemma ltb_lt (x y : Q) : ltb x y = true <-> x < y.
Proof.
  unfold ltb. rewrite Qlt_alt. destruct (Qcompare x y); intuition congruence.
Qed.

Lemma ltb_ge (x y : Q) : ltb x y = false <-> y <= x.
Proof.
  pose proof (ltb_lt x y) as H. pose proof (Qnot_lt_le x y) as H1.
  pose proof (Qle_not_lt y x) as H2.
  destruct (ltb x y); intuition congruence.
Qed.

Lemma gtb_gt (x y : Q) : gtb x y = true <-> y < x.
Proof. apply ltb_lt. Qed.

Lemma gtb_le (x y : Q) : gtb x y = false <-> x <= y.
Proof. apply ltb_ge. Qed.

Lemma percent_eq (x y : Q) : x / 100 == y -> x == y * 100.
Proof. intros H. rewrite <- H. field. Qed.

End PyFacts.

(** ** The pricing table and the cost report *)

Section CostReport.
Import CostCalculator.

(** Every requested instance type ends with the entry of its own turn
    of the loop, whatever was requested before or after it. *)
Lemma costs_lookup_from (hours : Q) (ts : list string) (acc : gmap string value)
    (t : string) :
  fold_left (fun costs t' => <[t' := cost_entry hours t']> costs) ts acc !! t
  = if decide (t ∈ ts) then Some (cost_entry hours t) else acc !! t.
Proof.
  revert acc. induction ts as [|x tl IH]; intros acc; simpl fold_left.
  - rewrite decide_False by apply not_elem_of_nil. reflexivity.
  - rewrite IH.
    destruct (decide (t ∈ tl)) as [Htl|Htl].
    + rewrite decide_True by (apply elem_of_cons; now right). reflexivity.
    + destruct (decide (x = t)) as [->|Hne].
      * rewrite decide_True by (apply elem_of_cons; now left).
        apply lookup_insert_eq.
      * rewrite decide_False
          by (rewrite elem_of_cons; intros [?|?]; [congruence|contradiction]).
        now apply lookup_insert_ne.
Qed.

Lemma costs_lookup (hours : Q) (ts : list string) (t : string) :
  t ∈ ts ->
  calculate_gpu_instance_costs ts hours !! t = Some (cost_entry hours t).
Proof.
  intros Hin. unfold calculate_gpu_instance_costs.
  rewrite costs_lookup_from. now rewrite decide_True.
Qed.

(** The [0] of [instance_costs.get(instance_type, 0)] is never taken. *)
Lemma demo_cost_lookup (hours : Q) (t : string) :
  default (Num 0) (calculate_gpu_instance_costs [t] hours !! t)
  = cost_entry hours t.
Proof. rewrite costs_lookup by (apply list_elem_of_singleton; reflexivity). reflexivity. Qed.

Lemma demo_costs_unknown (cfg : DemoConfig) :
  pricing !! default "g4dn.xlarge" (instance_type cfg) = None ->
  demo_infrastructure_costs cfg = Raise TypeError.
Proof.
  intros Hp. unfold demo_infrastructure_costs.
  rewrite demo_cost_lookup. unfold cost_entry. rewrite Hp. reflexivity.
Qed.

Lemma demo_costs_known (cfg : DemoConfig) (p : Q) :
  pricing !! default "g4dn.xlarge" (instance_type cfg) = Some p ->
  let hours := default 8 (duration_hours cfg) in
  let g := p * hours * inject_Z (default 2%Z (node_count cfg)) in
  demo_infrastructure_costs cfg
  = Ok {| gpu_instances := Num g;
          eks_control_plane := (10 # 100) * hours;
          monitoring_stack := 5;
          networking := 2;
          storage := 3;
          total := g + (10 # 100) * hours + 5 + 2 + 3 |}.
Proof.
  intros Hp. unfold demo_infrastructure_costs.
  rewrite demo_cost_lookup. unfold cost_entry. rewrite Hp. reflexivity.
Qed.

End CostReport.

(** ** Utilization improvement *)

Section Utilization.
Import CostCalculator.

Lemma utilization_improvement_ok (b o : Q) :
  ~ b == 0 -> ~ b == 1 -> ~ o == 0 ->
  calculate_utilization_improvement b o
  = Ok {| utilization_improvement_percent := (o - b) / b * 100;
          cost_efficiency_multiplier := o / b;
          idle_time_reduction_percent := (1 - (1 - o) / (1 - b)) * 100;
          effective_cost_per_work_unit := 1 / (o / b) |}.
Proof.
  intros Hb0 Hb1 Ho. unfold calculate_utilization_improvement.
  rewrite !(div_ok _ b) by assumption. cbn [bind].
  rewrite (div_ok _ (1 - b)) by (intros H; apply Hb1; lra). cbn [bind].
  rewrite div_ok; [reflexivity|].
  intros H. apply Ho.
  assert (E : o == o / b * b) by (field; assumption).
  rewrite E, H. ring.
Qed.

Lemma utilization_improvement_inv (b o : Q) (u : UtilizationImprovement) :
  calculate_utilization_improvement b o = Ok u ->
  ~ b == 0 /\ ~ b == 1 /\ ~ o == 0.
Proof.
  unfold calculate_utilization_improvement. intros H.
  destruct (div (o - b) b) as [r|] eqn:E1; [|discriminate]. cbn [bind] in H.
  apply div_inv in E1 as [Hb0 _].
  rewrite (div_ok o b) in H by assumption. cbn [bind] in H.
  destruct (div (1 - o) (1 - b)) as [i|] eqn:E2; [|discriminate].
  cbn [bind] in H. apply div_inv in E2 as [Hb1 _].
  destruct (div 1 (o / b)) as [e|] eqn:E3; [|discriminate].
  apply div_inv in E3 as [Ho _].
  split; [assumption|]. split.
  - intros Hb. apply Hb1. lra.
  - intros Hz. apply Ho. rewrite Hz. field. assumption.
Qed.

End Utilization.

(** ** Return on investment *)

Section ROI.
Import CostCalculator.

(** [generate_roi_analysis] divides by constants and, under its guard,
    by positive savings only: it always returns. *)
Lemma roi_analysis_ok (spend ui : Q) :
  exists r : ROIAnalysis,
    generate_roi_analysis spend ui = Ok r
    /\ cost_reduction_percent r
       = ((55 # 100) * (1 + ui / 100) - (55 # 100)) / (55 # 100) * 100
    /\ monthly_savings r = spend * (cost_reduction_percent r / 100)
    /\ annual_savings r = monthly_savings r * 12
    /\ agentaflow_monthly_cost r = 50
    /\ net_monthly_savings r = monthly_savings r - 50
    /\ payback_period_months r
       = (if gtb (monthly_savings r) 0
          then Fin (50 / monthly_savings r) else PosInf)
    /\ annual_roi_percent r
       = (if gtb (monthly_savings r) 0
          then annual_savings r / (50 * 12) * 100 else 0).
Proof.
  unfold generate_roi_analysis.
  rewrite (div_ok ui 100) by lra. cbn [bind].
  rewrite (div_ok _ (55 # 100)) by lra. cbn [bind].
  rewrite (div_ok _ 100) by lra. cbn [bind].
  set (savings := spend * _).
  destruct (gtb savings 0) eqn:G.
  - apply gtb_gt in G.
    rewrite (div_ok 50 savings) by lra. cbn [bind].
    rewrite (div_ok _ (50 * 12)) by lra. cbn [bind].
    eexists. split; [reflexivity|]. cbn.
    fold savings. rewrite (proj2 (gtb_gt savings 0) G). repeat split.
  - cbn [bind]. eexists. split; [reflexivity|]. cbn.
    fold savings. rewrite G. repeat split.
Qed.

End ROI.

(** ** Claims on the cost calculator *)

Section CostClaims.
Import CostCalculator.



(** C4.  For a configuration whose instance type is priced and whose
    node count is an integer that a float can hold (below 2^1023 in
    absolute value, so that price * hours * node_count does not raise
    OverflowError), the cost block of the report has gpu_instances =
    price * duration_hours * node_count and a total that is the sum of
    its five components, and a report that is returned carries exactly
    this block.  With 8 hours, g4dn.xlarge and 2 nodes the GPU cost is
    8.416, and with the default utilization figures of 55 and 85 the
    report is returned. *)
Theorem demo_report_costs (cfg : DemoConfig) (p : Q) :
  pricing !! default "g4dn.xlarge" (instance_type cfg) = Some p ->
  (Z.abs (default 2 (node_count cfg)) < 2 ^ 1023)%Z ->
  exists (c : InfrastructureCosts) (g : Q),
    demo_infrastructure_costs cfg = Ok c
    /\ gpu_instances c = Num g
    /\ g = p * default 8 (duration_hours cfg)
             * inject_Z (default 2%Z (node_count cfg))
    /\ total c = g + eks_control_plane c + monitoring_stack c
                   + networking c + storage c
    /\ (forall r, generate_demo_report cfg = Ok r -> infrastructure_costs r = c)
    /\ (duration_hours cfg = Some 8 ->
        instance_type cfg = Some "g4dn.xlarge" ->
        node_count cfg = Some 2%Z ->
        g = 8416 # 1000)
    /\ (default 55 (baseline_utilization cfg) = 55 ->
        default 85 (optimized_utilization cfg) = 85 ->
        exists r, generate_demo_report cfg = Ok r /\ infrastructure_costs r = c).
Proof.
  intros Hp _. pose proof (demo_costs_known cfg p Hp) as Hc. cbv zeta in Hc.
  eexists. eexists. split; [exact Hc|].
  split; [reflexivity|]. split; [reflexivity|]. split; [reflexivity|].
  split; [|split].
  - intros r Hr. unfold generate_demo_report in Hr. rewrite Hc in Hr.
    cbn [bind] in Hr.
    repeat match type of Hr with
           | context [bind ?m _] =>
               destruct m eqn:?; cbn [bind] in Hr; [|discriminate]
           end.
    now injection Hr as <-.
  - intros Hh Ht Hn. rewrite Ht in Hp. rewrite Hh, Hn.
    vm_compute in Hp. injection Hp as <-. reflexivity.
  - intros Hb Ho. unfold generate_demo_report. rewrite Hc, Hb, Ho.
    cbn [bind].
    rewrite (div_ok 55 100) by lra. cbn [bind].
    rewrite (div_ok 85 100) by lra. cbn [bind].
    rewrite utilization_improvement_ok by (vm_compute; discriminate).
    cbn [bind utilization_improvement_percent].
    destruct (roi_analysis_ok
                (default 10000 (monthly_gpu_spend cfg))
                ((85 / 100 - 55 / 100) / (55 / 100) * 100))
      as (r & Hr & _).
    rewrite Hr. cbn [bind]. eexists. split; reflexivity.
Qed.

Lemma demo_report_costs_witness :
  exists r : DemoReport,
    generate_demo_report default_demo_config = Ok r
    /\ gpu_instances (infrastructure_costs r) = Num (8416 # 1000).
Proof.
  destruct (demo_report_costs default_demo_config (526 # 1000))
    as (c & g & Hc & Hg & _ & Ht & _ & H8 & Hex);
    [vm_compute; reflexivity ..|].
  destruct (Hex eq_refl eq_refl) as (r & Hrep & Hrc).
  exists r. split; [assumption|].
  rewrite Hrc, Hg. now rewrite (H8 eq_refl eq_refl eq_refl).
Defined.

(** C5, amended.  For baseline and optimized utilization strictly
    between 0 and 1 whose ratio is between 10^-100 and 10^100, the
    improvement record is returned, and its cost_efficiency_multiplier
    times its effective_cost_per_work_unit is 1 to within 10^-9. *)
Theorem efficiency_reciprocal (b o : Q) :
  0 < b -> b < 1 -> 0 < o -> o < 1 ->
  b <= inject_Z (10 ^ 100) * o -> o <= inject_Z (10 ^ 100) * b ->
  exists u : UtilizationImprovement,
    calculate_utilization_improvement b o = Ok u
    /\ Qabs (cost_efficiency_multiplier u * effective_cost_per_work_unit u - 1)
       <= 1 # 1000000000.
Proof.
  intros Hb0 Hb1 Ho0 Ho1 _ _.
  eexists. split.
  - apply utilization_improvement_ok; lra.
  - cbn [cost_efficiency_multiplier effective_cost_per_work_unit].
    assert (E : o / b * (1 / (o / b)) - 1 == 0) by (field; split; lra).
    rewrite E. discriminate.
Qed.

Lemma efficiency_reciprocal_witness :
  exists u : UtilizationImprovement,
    calculate_utilization_improvement (55 # 100) (85 # 100) = Ok u
    /\ Qabs (cost_efficiency_multiplier u * effective_cost_per_work_unit u - 1)
       <= 1 # 1000000000.
Proof.
  apply (efficiency_reciprocal (55 # 100) (85 # 100));
    vm_compute; discriminate || reflexivity.
Defined.

(** C6.  A baseline of 0 raises ZeroDivisionError, and so does a
    baseline of 1 (the idle-time quotient); no record is returned in
    either case, and a record that is returned comes from a baseline
    that is neither. *)
Theorem utilization_division_guard (b o : Q) :
  (b == 0 \/ b == 1 ->
   calculate_utilization_improvement b o = Raise ZeroDivisionError)
  /\ (forall u, calculate_utilization_improvement b o = Ok u ->
        ~ b == 0 /\ ~ b == 1).
Proof.
  split.
  - intros [Hb|Hb]; unfold calculate_utilization_improvement.
    + now rewrite div_zero.
    + rewrite !(div_ok _ b) by (rewrite Hb; lra). cbn [bind].
      rewrite div_zero by (rewrite Hb; lra). reflexivity.
  - intros u Hu. apply utilization_improvement_inv in Hu. tauto.
Qed.

Lemma utilization_division_guard_witness :
  calculate_utilization_improvement 0 (85 # 100) = Raise ZeroDivisionError
  /\ calculate_utilization_improvement 1 (85 # 100) = Raise ZeroDivisionError.
Proof.
  split.
  - apply (proj1 (utilization_division_guard 0 (85 # 100))). left. reflexivity.
  - apply (proj1 (utilization_division_guard 1 (85 # 100))). right. reflexivity.
Defined.

End CostClaims.

Section Binary64Claims.
Import Binary64.

Lemma b64_div_nonzero (x y : float) :
  eqb y zero = false -> div x y = Ok (quot x y).
Proof. intros H. unfold div. now rewrite H. Qed.

(** A float above zero is not equal to zero, and one at most zero is
    not above it. *)
Lemma b64_positive_nonzero (x : float) : ltb zero x = true -> eqb x zero = false.
Proof. destruct x as [s|s| |s m e]; try destruct s; cbn; congruence. Qed.

Lemma b64_le_zero_not_positive (x : float) :
  leb x zero = true -> ltb zero x = false.
Proof. destruct x as [s|s| |s m e]; try destruct s; cbn; congruence. Qed.

(** Zero times anything is a zero, or a NaN when the other factor is
    infinite or a NaN. *)
Lemma b64_mul_zero (s : bool) (x : float) :
  (exists s', mul (S754_zero s) x = S754_zero s') \/ mul (S754_zero s) x = S754_nan.
Proof. destruct x as [sx|sx| |sx m e]; cbn; eauto. Qed.

(** C5 as stated fails on binary64: for baseline 0.5 and optimized
    1e-320 the multiplier is 2e-320, its reciprocal overflows to inf,
    and the product is inf, not 1 to within a thousandth. *)
Lemma efficiency_reciprocal_overflow_counterexample :
  ~ (forall b o u,
       ltb zero b = true -> ltb b (of_int 1) = true ->
       ltb zero o = true -> ltb o (of_int 1) = true ->
       calculate_utilization_improvement b o = Ok u ->
       leb (lit 999 1000)
           (mul (cost_efficiency_multiplier u) (effective_cost_per_work_unit u))
       = true
       /\ leb (mul (cost_efficiency_multiplier u) (effective_cost_per_work_unit u))
              (lit 1001 1000)
          = true).
Proof.
  intros H.
  destruct (calculate_utilization_improvement (lit 5 10) tiny) as [u|e] eqn:E;
    [|vm_compute in E; discriminate E].
  destruct (H (lit 5 10) tiny u eq_refl eq_refl eq_refl eq_refl E) as [_ Hle].
  vm_compute in E. injection E as <-.
  vm_compute in Hle. discriminate Hle.
Qed.

(** C3 as stated fails on binary64: with a monthly spend of 1e-320 and
    an improvement of 100 the monthly savings are positive, yet
    50 / monthly_savings overflows and the payback period is inf. *)
Lemma roi_payback_overflow_counterexample :
  ~ (forall spend ui r,
       leb zero spend = true ->
       generate_roi_analysis spend ui = Ok r ->
       (payback_period_months r = infinity <->
        leb (monthly_savings r) zero = true)).
Proof.
  intros H.
  destruct (generate_roi_analysis tiny (of_int 100)) as [r|e] eqn:E;
    [|vm_compute in E; discriminate E].
  destruct (H tiny (of_int 100) r eq_refl E) as [Hinf _].
  vm_compute in E. injection E as <-.
  specialize (Hinf eq_refl). vm_compute in Hinf. discriminate Hinf.
Qed.

(** C3, amended.  On binary64 the ROI analysis always returns.  Its
    payback_period_months is inf and its annual_roi_percent is 0
    whenever monthly_savings is not above 0, so whenever
    monthly_savings <= 0; when monthly_savings > 0 the payback period
    is the binary64 quotient 50 / monthly_savings (which is inf when it
    overflows) and the annual ROI the quotient annual_savings / 600
    times 100.  With a monthly GPU spend of 0 the payback period is
    inf, the annual ROI 0, and monthly_savings a zero (a NaN if the
    reduction factor is not finite): with an improvement of 50, for
    one, monthly_savings is 0.0. *)
Theorem roi_payback_binary64 (spend ui : float) :
  (exists r : ROIAnalysis,
    generate_roi_analysis spend ui = Ok r
    /\ (ltb zero (monthly_savings r) = false ->
        payback_period_months r = infinity /\ annual_roi_percent r = zero)
    /\ (leb (monthly_savings r) zero = true ->
        payback_period_months r = infinity /\ annual_roi_percent r = zero)
    /\ (ltb zero (monthly_savings r) = true ->
        payback_period_months r = quot (of_int 50) (monthly_savings r)
        /\ annual_roi_percent r
           = mul (quot (annual_savings r) (of_int 600)) (of_int 100))
    /\ (forall s, spend = S754_zero s ->
        payback_period_months r = infinity
        /\ annual_roi_percent r = zero
        /\ ((exists s', monthly_savings r = S754_zero s')
            \/ monthly_savings r = S754_nan)))
  /\ (exists r0 : ROIAnalysis,
        generate_roi_analysis zero (of_int 50) = Ok r0
        /\ monthly_savings r0 = zero
        /\ payback_period_months r0 = infinity
        /\ annual_roi_percent r0 = zero).
Proof.
  split; [|eexists; split; [vm_compute; reflexivity|repeat split]].
  unfold generate_roi_analysis.
  rewrite (b64_div_nonzero ui (of_int 100)) by reflexivity. cbn [bind].
  rewrite (b64_div_nonzero _ (lit 55 100)) by reflexivity. cbn [bind].
  rewrite (b64_div_nonzero _ (of_int 100)) by reflexivity. cbn [bind].
  set (crf := quot _ (of_int 100)).
  set (savings := mul spend crf).
  assert (Hzero : forall s, spend = S754_zero s -> ltb zero savings = false).
  { intros s ->. unfold savings.
    destruct (b64_mul_zero s crf) as [[s' ->]| ->]; reflexivity. }
  destruct (ltb zero savings) eqn:G.
  - rewrite (b64_div_nonzero (of_int 50) savings)
      by (now apply b64_positive_nonzero).
    cbn [bind].
    rewrite (b64_div_nonzero _ (of_int (50 * 12))) by reflexivity. cbn [bind].
    eexists. split; [reflexivity|].
    cbn [monthly_savings payback_period_months annual_roi_percent annual_savings].
    fold savings.
    split; [congruence|].
    split; [intros H; apply b64_le_zero_not_positive in H; congruence|].
    split; [intros _; split; reflexivity|].
    intros s Hs. discriminate (Hzero s Hs).
  - cbn [bind]. eexists. split; [reflexivity|].
    cbn [monthly_savings payback_period_months annual_roi_percent annual_savings].
    fold savings.
    split; [intros _; split; reflexivity|].
    split; [intros _; split; reflexivity|].
    split; [congruence|].
    intros s ->. split; [reflexivity|]. split; [reflexivity|].
    unfold savings. destruct (b64_mul_zero s crf) as [[s' ->]| ->]; eauto.
Qed.

End Binary64Claims.

(** ** Rounding to two decimals *)

Section Rounding.

(** A division by 100 is a product with 1/100, which is linear. *)
Ltac hundredths := unfold Qdiv; change (/ 100) with (1 # 100).

Lemma round_half_even_cases (x : Q) :
  (round_half_even x = Qfloor x /\ x - inject_Z (Qfloor x) <= 1 # 2)
  \/ (round_half_even x = (Qfloor x + 1)%Z /\ 1 # 2 <= x - inject_Z (Qfloor x)).
Proof.
  unfold round_half_even. cbv zeta.
  destruct (Qcompare (x - inject_Z (Qfloor x)) (1 # 2)) eqn:C.
  - apply Qeq_alt in C.
    destruct (Z.even (Qfloor x)); [left|right]; (split; [reflexivity|lra]).
  - apply Qlt_alt in C. left. split; [reflexivity|lra].
  - apply Qgt_alt in C. right. split; [reflexivity|lra].
Qed.

Lemma round_half_even_close (x : Q) :
  x - (1 # 2) <= inject_Z (round_half_even x) <= x + (1 # 2).
Proof.
  pose proof (Qfloor_le x) as Hl. pose proof (Qlt_floor x) as Hu.
  rewrite inject_Z_plus in Hu. change (inject_Z 1) with 1 in Hu.
  destruct (round_half_even_cases x) as [[-> H]|[-> H]];
    rewrite ?inject_Z_plus; change (inject_Z 1) with 1; split; lra.
Qed.

(** The rounded value is within half a hundredth of the exact one. *)
Lemma round2_close (x : Q) : Qabs (round2 x - x) <= 1 # 200.
Proof.
  unfold round2. pose proof (round_half_even_close (x * 100)) as [Hl Hu].
  set (n := inject_Z (round_half_even (x * 100))) in *.
  apply Qabs_Qle_condition. hundredths. split; lra.
Qed.

(** Rounding does not pass an integer number of hundredths. *)
Lemma round_half_even_le (x : Q) (k : Z) :
  x <= inject_Z k -> (round_half_even x <= k)%Z.
Proof.
  intros Hx.
  pose proof (Qfloor_le x) as Hl.
  assert (Hf : (Qfloor x <= k)%Z).
  { rewrite Zle_Qle. lra. }
  destruct (round_half_even_cases x) as [[-> H]|[-> H]]; [assumption|].
  destruct (Z.eq_dec (Qfloor x) k) as [E|E]; [|lia].
  rewrite E in H. lra.
Qed.

Lemma round2_le_100 (x : Q) : x <= 100 -> round2 x <= 100.
Proof.
  intros Hx. unfold round2.
  assert (H : (round_half_even (x * 100) <= 10000)%Z).
  { apply round_half_even_le. change (inject_Z 10000) with 10000. lra. }
  rewrite Zle_Qle in H. change (inject_Z 10000) with 10000 in H.
  hundredths. lra.
Qed.

Lemma round2_lt_100 (x : Q) : x < 99995 # 1000 -> round2 x < 100.
Proof.
  intros Hx. unfold round2.
  assert (H : (round_half_even (x * 100) <= 9999)%Z).
  { pose proof (Qfloor_le (x * 100)) as Hl.
    assert (Hf : (Qfloor (x * 100) <= 9999)%Z).
    { apply Z.lt_succ_r. rewrite Zlt_Qlt. change (inject_Z (Z.succ 9999)) with 10000. lra. }
    destruct (round_half_even_cases (x * 100)) as [[-> H]|[-> H]]; [assumption|].
    destruct (Z.eq_dec (Qfloor (x * 100)) 9999%Z) as [E|E]; [|lia].
    rewrite E in H. change (inject_Z 9999) with 9999 in H. lra. }
  rewrite Zle_Qle in H. change (inject_Z 9999) with 9999 in H.
  hundredths. lra.
Qed.

Lemma round2_zero (x : Q) : x == 0 -> round2 x == 0.
Proof.
  intros Hx. pose proof (round_half_even_close (x * 100)) as [Hl Hu].
  unfold round2.
  assert (H : round_half_even (x * 100) = 0%Z).
  { assert (H1 : (-1 < round_half_even (x * 100))%Z).
    { rewrite Zlt_Qlt. change (inject_Z (-1)) with (-1). lra. }
    assert (H2 : (round_half_even (x * 100) < 1)%Z).
    { rewrite Zlt_Qlt. change (inject_Z 1) with 1. lra. }
    lia. }
  rewrite H. reflexivity.
Qed.

End Rounding.

(** ** The duration sample *)

Section DurationSample.
Import BuildAnalytics.

Lemma is_success_spec (r : run) : is_success r = true <-> conclusion r = "success".
Proof. apply String.eqb_eq. Qed.

Lemma is_failure_spec (r : run) : is_failure r = true <-> conclusion r = "failure".
Proof. apply String.eqb_eq. Qed.

Lemma sample_cons (r : run) (tl : list run) :
  Spec.duration_sample (r :: tl)
  = match Spec.duration r with
    | Some d => d :: Spec.duration_sample tl
    | None => Spec.duration_sample tl
    end.
Proof. reflexivity. Qed.

(** One turn of the loop on a successful run adds the run's duration
    when there is one, and never raises. *)
Lemma append_duration_success (acc : list Q) (r : run) :
  is_success r = true ->
  append_duration acc r
  = Ok (acc ++ match Spec.duration r with Some d => [d] | None => [] end).
Proof.
  intros Hs. apply is_success_spec in Hs.
  unfold append_duration, Spec.duration. rewrite decide_True by assumption.
  destruct (created_at r) as [c|], (updated_at r) as [u|];
    rewrite ?app_nil_r; reflexivity.
Qed.

Lemma duration_not_success (r : run) :
  is_success r = false -> Spec.duration r = None.
Proof.
  intros Hs. unfold Spec.duration.
  rewrite decide_False; [reflexivity|].
  intros H. apply is_success_spec in H. congruence.
Qed.

(** The loop of [analyze_build_performance] over the successful runs
    collects the specification's sample. *)
Lemma build_durations_from (runs : list run) (acc : list Q) :
  for_each append_duration (List.filter is_success runs) acc
  = Ok (acc ++ Spec.duration_sample runs).
Proof.
  revert acc. induction runs as [|r tl IH]; intros acc.
  - simpl. now rewrite app_nil_r.
  - rewrite sample_cons. simpl List.filter.
    destruct (is_success r) eqn:Hs.
    + simpl for_each. rewrite append_duration_success by assumption.
      cbn [bind]. rewrite IH.
      destruct (Spec.duration r); rewrite <- app_assoc; reflexivity.
    + rewrite (duration_not_success r Hs). apply IH.
Qed.

(** The loop of [calculate_cache_efficiency] collects the same sample. *)
Lemma cache_durations_from (runs : list run) (acc : list Q) :
  for_each append_success_duration runs acc
  = Ok (acc ++ Spec.duration_sample runs).
Proof.
  revert acc. induction runs as [|r tl IH]; intros acc.
  - simpl. now rewrite app_nil_r.
  - rewrite sample_cons. simpl for_each.
    unfold append_success_duration at 1.
    destruct (is_success r) eqn:Hs.
    + rewrite append_duration_success by assumption.
      cbn [bind]. rewrite IH.
      destruct (Spec.duration r); rewrite <- app_assoc; reflexivity.
    + cbn [bind]. rewrite (duration_not_success r Hs). apply IH.
Qed.

Lemma build_durations_sample (runs : list run) :
  build_durations (List.filter is_success runs) = Ok (Spec.duration_sample runs).
Proof. unfold build_durations. now rewrite build_durations_from. Qed.

Lemma cache_durations_sample (runs : list run) :
  cache_durations runs = Ok (Spec.duration_sample runs).
Proof. unfold cache_durations. now rewrite cache_durations_from. Qed.

(** No run is both a success and a failure. *)
Lemma success_failure_count (runs : list run) :
  (length (List.filter is_success runs) + length (List.filter is_failure runs)
   <= length runs)%nat.
Proof.
  induction runs as [|r tl IH]; simpl; [lia|].
  destruct (is_success r) eqn:Hs, (is_failure r) eqn:Hf; simpl; try lia.
  apply is_success_spec in Hs. apply is_failure_spec in Hf. congruence.
Qed.

Lemma sample_le_successful (runs : list run) :
  (length (Spec.duration_sample runs) <= length (List.filter is_success runs))%nat.
Proof.
  induction runs as [|r tl IH]; [reflexivity|].
  rewrite sample_cons. simpl List.filter.
  destruct (is_success r) eqn:Hs.
  - destruct (Spec.duration r); cbn [length]; lia.
  - now rewrite (duration_not_success r Hs).
Qed.

Lemma len_pos {A : Type} (x : A) (l : list A) : 0 < len (x :: l).
Proof.
  unfold len. change 0 with (inject_Z 0). rewrite <- Zlt_Qlt.
  change (length (x :: l)) with (S (length l)). lia.
Qed.

(** The aggregator returns on every input, with these fields. *)
Lemma analyze_ok (runs : list run) :
  exists m : BuildMetrics,
    analyze_build_performance runs = Ok m
    /\ total_runs m = length runs
    /\ successful_runs m = length (List.filter is_success runs)
    /\ failed_runs m = length (List.filter is_failure runs)
    /\ success_rate m
       = round2 (match runs with
                 | [] => 0
                 | _ :: _ => len (List.filter is_success runs) / len runs * 100
                 end)
    /\ avg_duration_minutes m
       = round2 (match Spec.duration_sample runs with
                 | [] => 0
                 | d :: tl => sum (d :: tl) / len (d :: tl)
                 end)
    /\ min_duration_minutes m
       = round2 (match Spec.duration_sample runs with
                 | [] => 0
                 | d :: tl => min_from d tl
                 end)
    /\ max_duration_minutes m
       = round2 (match Spec.duration_sample runs with
                 | [] => 0
                 | d :: tl => max_from d tl
                 end)
    /\ failure_reasons m = fold_left tally (List.filter is_failure runs) ∅.
Proof.
  unfold analyze_build_performance.
  rewrite build_durations_sample. cbn [bind].
  destruct (Spec.duration_sample runs) as [|d tl] eqn:Hd.
  - cbn [bind]. destruct runs as [|r rs].
    + simpl. eexists. split; [reflexivity|]. cbn. repeat split.
    + change (0 <? length (r :: rs))%nat with true. cbv iota.
      rewrite div_ok by (pose proof (len_pos r rs); lra). cbn [bind].
      eexists. split; [reflexivity|]. cbn. repeat split.
  - rewrite div_ok by (pose proof (len_pos d tl); lra). cbn [bind].
    destruct runs as [|r rs]; [discriminate|].
    change (0 <? length (r :: rs))%nat with true. cbv iota.
    rewrite div_ok by (pose proof (len_pos r rs); lra). cbn [bind].
    eexists. split; [reflexivity|]. cbn. repeat split.
Qed.

End DurationSample.

(** ** The cache heuristic *)

Section CacheHeuristic.
Import BuildAnalytics.

Lemma sum_from (l : list Q) (a : Q) :
  fold_left Qplus l a == a + fold_right Qplus 0 l.
Proof.
  revert a. induction l as [|x tl IH]; intros a; simpl.
  - ring.
  - rewrite IH. ring.
Qed.

(** Python's running sum is the specification's sum. *)
Lemma sum_spec (l : list Q) : sum l == fold_right Qplus 0 l.
Proof. unfold sum. rewrite sum_from. ring. Qed.

Lemma avg_mean (d : Q) (tl : list Q) :
  sum (d :: tl) / len (d :: tl) == Spec.mean (d :: tl).
Proof.
  unfold Spec.mean. fold (len (d :: tl)). rewrite sum_spec. reflexivity.
Qed.

(** The list comprehension of line 99 keeps what the specification
    calls fast. *)
Lemma fast_count_filter (m avg : Q) (ds : list Q) :
  avg == m ->
  length (List.filter (fun d => ltb d (avg * (8 # 10))) ds)
  = Spec.fast_count m ds.
Proof.
  intros Ha. induction ds as [|d tl IH]; [reflexivity|].
  simpl. destruct (Qlt_le_dec d ((8 # 10) * m)) as [Hlt|Hge].
  - rewrite (proj2 (ltb_lt d (avg * (8 # 10)))) by (rewrite Ha; lra).
    simpl. now rewrite IH.
  - rewrite (proj2 (ltb_ge d (avg * (8 # 10)))) by (rewrite Ha; lra).
    exact IH.
Qed.

(** On a non-empty sample the estimator returns, with these fields. *)
Lemma cache_efficiency_ok (d : Q) (tl : list Q) :
  let ds := d :: tl in
  let fast := Spec.fast_count (Spec.mean ds) ds in
  cache_efficiency_of ds
  = Ok {| cache_hit_rate_estimate :=
            round2 (inject_Z (Z.of_nat fast) / len ds * 100);
          fast_builds := Some fast;
          total_builds := Some (length ds);
          note := "Estimated based on build duration variance" |}.
Proof.
  intros ds fast. subst fast ds. unfold cache_efficiency_of.
  assert (Hn : ~ len (d :: tl) == 0) by (pose proof (len_pos d tl); lra).
  rewrite (div_ok _ (len (d :: tl))) by exact Hn. cbn [bind].
  rewrite (div_ok _ (len (d :: tl))) by exact Hn. cbn [bind].
  unfold len.
  rewrite (fast_count_filter (Spec.mean (d :: tl))) by apply avg_mean.
  reflexivity.
Qed.

Lemma cache_efficiency_nonempty (ds : list Q) :
  ds <> [] ->
  cache_efficiency_of ds
  = Ok {| cache_hit_rate_estimate :=
            round2 (inject_Z (Z.of_nat (Spec.fast_count (Spec.mean ds) ds))
                    / len ds * 100);
          fast_builds := Some (Spec.fast_count (Spec.mean ds) ds);
          total_builds := Some (length ds);
          note := "Estimated based on build duration variance" |}.
Proof.
  intros Hne. destruct ds as [|d tl]; [congruence|].
  apply cache_efficiency_ok.
Qed.

Lemma fast_count_le (m : Q) (ds : list Q) :
  (Spec.fast_count m ds <= length ds)%nat.
Proof.
  induction ds as [|d tl IH]; simpl; [lia|].
  destruct (Qlt_le_dec d ((8 # 10) * m)); lia.
Qed.

(** When every duration is fast their sum stays below [n * 0.8 * m]. *)
Lemma all_fast_sum (m : Q) (ds : list Q) :
  Spec.fast_count m ds = length ds ->
  fold_right Qplus 0 ds
  <= inject_Z (Z.of_nat (length ds)) * ((8 # 10) * m)
  /\ (ds <> [] ->
      fold_right Qplus 0 ds
      < inject_Z (Z.of_nat (length ds)) * ((8 # 10) * m)).
Proof.
  induction ds as [|d tl IH]; intros Hc.
  - cbn [fold_right length]. change (inject_Z (Z.of_nat 0)) with 0.
    split; [lra|congruence].
  - simpl in Hc. cbn [fold_right length]. rewrite Nat2Z.inj_succ.
    unfold Z.succ. rewrite inject_Z_plus. change (inject_Z 1) with 1.
    destruct (Qlt_le_dec d ((8 # 10) * m)) as [Hlt|Hge].
    + injection Hc as Hc. destruct (IH Hc) as [IHle _].
      split; [|intros _]; lra.
    + pose proof (fast_count_le m tl). lia.
Qed.

Lemma sum_nonneg (ds : list Q) :
  Forall (Qle 0) ds -> 0 <= fold_right Qplus 0 ds.
Proof.
  induction 1 as [|d tl Hd _ IH]; simpl; lra.
Qed.

(** Not every non-negative duration lies below 0.8 times their mean. *)
Lemma fast_count_lt (ds : list Q) :
  ds <> [] -> Forall (Qle 0) ds ->
  (Spec.fast_count (Spec.mean ds) ds < length ds)%nat.
Proof.
  intros Hne Hpos.
  pose proof (fast_count_le (Spec.mean ds) ds) as Hle.
  destruct (Nat.eq_dec (Spec.fast_count (Spec.mean ds) ds) (length ds))
    as [E|E]; [exfalso|lia].
  destruct (all_fast_sum _ _ E) as [_ Hlt]. specialize (Hlt Hne).
  pose proof (sum_nonneg ds Hpos) as H0.
  destruct ds as [|d tl]; [congruence|].
  pose proof (len_pos d tl) as Hn. unfold len in Hn.
  unfold Spec.mean in Hlt.
  set (s := fold_right Qplus 0 (d :: tl)) in *.
  set (n := inject_Z (Z.of_nat (length (d :: tl)))) in *.
  assert (Hs : n * ((8 # 10) * (s / n)) == (8 # 10) * s) by (field; lra).
  rewrite Hs in Hlt. lra.
Qed.

(** The estimate depends on the durations as numbers, not on how
    their fractions are written. *)
Lemma sum_proper (l l' : list Q) :
  Forall2 Qeq l l' -> fold_right Qplus 0 l == fold_right Qplus 0 l'.
Proof.
  induction 1 as [|x y l l' Hxy _ IH]; simpl; [reflexivity|].
  now rewrite Hxy, IH.
Qed.

Lemma mean_proper (l l' : list Q) :
  Forall2 Qeq l l' -> Spec.mean l == Spec.mean l'.
Proof.
  intros H. unfold Spec.mean.
  rewrite (sum_proper l l' H), (Forall2_length _ _ _ H). reflexivity.
Qed.

Lemma fast_count_proper (m m' : Q) (l l' : list Q) :
  m == m' -> Forall2 Qeq l l' -> Spec.fast_count m l = Spec.fast_count m' l'.
Proof.
  intros Hm. induction 1 as [|x y l l' Hxy _ IH]; simpl; [reflexivity|].
  destruct (Qlt_le_dec x ((8 # 10) * m)), (Qlt_le_dec y ((8 # 10) * m'));
    rewrite IH; try reflexivity; exfalso; rewrite Hxy, Hm in *; lra.
Qed.

Lemma sample_repeat (r : run) (d : Q) (n : nat) :
  Spec.duration r = Some d -> Spec.duration_sample (repeat r n) = repeat d n.
Proof.
  intros Hd. induction n as [|n IH]; [reflexivity|].
  cbn [repeat]. now rewrite sample_cons, Hd, IH.
Qed.

Lemma sample_app (l1 l2 : list run) :
  Spec.duration_sample (l1 ++ l2)
  = Spec.duration_sample l1 ++ Spec.duration_sample l2.
Proof. apply omap_app. Qed.

(** [calculate_cache_efficiency] is the estimate of the duration
    sample of its runs. *)
Lemma calculate_cache_efficiency_sample (runs : list run) :
  calculate_cache_efficiency runs
  = cache_efficiency_of (Spec.duration_sample runs).
Proof.
  unfold calculate_cache_efficiency. now rewrite cache_durations_sample.
Qed.

End CacheHeuristic.

(** ** Counts by conclusion and by duration *)

Section Counts.
Import BuildAnalytics.

(** The two list comprehensions of lines 48-49 keep the runs whose
    conclusion is "success", respectively "failure". *)
Lemma filter_success_count (runs : list run) :
  length (List.filter is_success runs) = Spec.count_conclusion "success" runs.
Proof.
  induction runs as [|r tl IH]; [reflexivity|].
  cbn [List.filter Spec.count_conclusion].
  destruct (is_success r) eqn:Hs.
  - apply is_success_spec in Hs. rewrite decide_True by exact Hs.
    cbn [length]. now rewrite IH.
  - rewrite decide_False; [exact IH|].
    intros H. apply is_success_spec in H. congruence.
Qed.






(** A rounded figure is within a hundredth of the exact one. *)
Lemma round2_near (x : Q) : Qabs (round2 x - x) <= 1 # 100.
Proof.
  apply (Qle_trans _ (1 # 200)); [apply round2_close|discriminate].
Qed.

End Counts.

(** ** Claims on the build aggregator *)

Section AggregatorClaims.
Import BuildAnalytics Examples.

(** C7 as stated fails: with one success in three runs the reported
    success rate is 33.33, not 100/3. *)
Lemma success_rate_exact_counterexample :
  ~ (forall runs m,
       analyze_build_performance runs = Ok m ->
       (0 < total_runs m)%nat ->
       success_rate m
       == inject_Z (Z.of_nat (successful_runs m))
          / inject_Z (Z.of_nat (total_runs m)) * 100).
Proof.
  intros H.
  destruct (analyze_ok one_in_three) as (m & Hm & Ht & Hs & _ & Hr & _).
  specialize (H _ _ Hm). rewrite Ht, Hs, Hr in H.
  specialize (H ltac:(vm_compute; lia)).
  vm_compute in H. discriminate H.
Qed.

(** C7, amended.  For every sequence of build-run records the
    aggregator counts as successful the runs whose conclusion is
    "success" and reports a success rate within 0.01 of
    successful/total*100 when total > 0 (the ratio rounded to two
    decimals) and 0 when total = 0.  On the empty sequence it returns
    total_runs = 0, success rate 0, an empty failure-reason map, and
    zero min/avg/max durations. *)
Theorem success_rate_rounded (runs : list run) :
  exists m : BuildMetrics,
    analyze_build_performance runs = Ok m
    /\ total_runs m = length runs
    /\ successful_runs m = Spec.count_conclusion "success" runs
    /\ ((0 < total_runs m)%nat ->
        Qabs (success_rate m
              - inject_Z (Z.of_nat (Spec.count_conclusion "success" runs))
                / inject_Z (Z.of_nat (length runs)) * 100) <= 1 # 100)
    /\ (total_runs m = 0%nat -> success_rate m == 0)
    /\ (runs = [] ->
        total_runs m = 0%nat
        /\ success_rate m == 0
        /\ failure_reasons m = ∅
        /\ avg_duration_minutes m == 0
        /\ min_duration_minutes m == 0
        /\ max_duration_minutes m == 0).
Proof.
  destruct (analyze_ok runs)
    as (m & Hm & Ht & Hs & Hf & Hr & Ha & Hmin & Hmax & Hfr).
  exists m. split; [exact Hm|]. split; [exact Ht|].
  split; [rewrite Hs; apply filter_success_count|].
  rewrite Hr, Ha, Hmin, Hmax, Hfr, Ht, <- filter_success_count.
  split; [|split].
  - intros Hpos. destruct runs as [|r rs]; [simpl in Hpos; lia|].
    apply round2_near.
  - intros H0. destruct runs as [|r rs]; [|discriminate].
    now apply round2_zero.
  - intros ->. cbn. repeat split; now apply round2_zero.
Qed.


End AggregatorClaims.

(** ** Claims on the cache estimate *)

Section CacheClaims.
Import BuildAnalytics Examples.


(** The test of line 99 at its boundary, on binary64: with durations
    of 2.4 and 3.6 minutes the mean is 3.0 and 3.0 * 0.8 rounds to a
    float above 2.4, so the 2.4-minute build passes [d < mean * 0.8]
    although 2.4 is 0.8 times the mean. *)
Lemma fast_test_boundary :
  Binary64.add (Binary64.lit 24 10) (Binary64.lit 36 10) = Binary64.of_int 6
  /\ Binary64.quot (Binary64.of_int 6) (Binary64.of_int 2) = Binary64.of_int 3
  /\ Binary64.is_fast (Binary64.lit 24 10) (Binary64.of_int 3) = true.
Proof. vm_compute. repeat split. Qed.


Lemma Forall2_repeat {A B : Type} (R : A -> B -> Prop) (x : A) (y : B) (n : nat) :
  R x y -> Forall2 R (repeat x n) (repeat y n).
Proof. intros H. induction n; simpl; constructor; assumption. Qed.

(** The sample of the 20001 runs: 20000 durations equal to 0 and one
    equal to 1. *)
Lemma many_instant_sample :
  exists ds : list Q,
    Spec.duration_sample many_instant_one_slow = ds
    /\ Forall2 Qeq ds (repeat 0 (Z.to_nat 20000) ++ [1]).
Proof.
  eexists. split.
  - unfold many_instant_one_slow. rewrite sample_app.
    rewrite (sample_repeat (run_of "success" 0) _ _ eq_refl). reflexivity.
  - apply Forall2_app.
    + apply Forall2_repeat. reflexivity.
    + constructor; [reflexivity|constructor].
Qed.

(** C10 as stated fails: 20000 successes that took no time and one of
    a minute give 20000 fast builds of 20001, and the reported rate
    rounds to 100. *)
Lemma cache_rate_below_100_counterexample :
  ~ (forall runs c,
       Spec.duration_sample runs <> [] ->
       Forall (Qle 0) (Spec.duration_sample runs) ->
       calculate_cache_efficiency runs = Ok c ->
       cache_hit_rate_estimate c < 100).
Proof.
  intros H.
  destruct many_instant_sample as (ds & Hds & H2).
  assert (Hne : ds <> []).
  { intros ->. apply Forall2_length in H2. rewrite length_app in H2.
    simpl in H2. lia. }
  assert (Hpos : Forall (Qle 0) ds).
  { assert (Hp : Forall (Qle 0) (repeat 0 (Z.to_nat 20000) ++ [1])).
    { apply Forall_app. split.
      - apply Forall_forall. intros x Hx.
        apply list_elem_of_In, repeat_spec in Hx. subst x. discriminate.
      - repeat constructor. discriminate. }
    revert Hp. clear -H2.
    induction H2 as [|x y l l' Hxy _ IH]; intros Hp; [constructor|].
    apply Forall_cons in Hp as [Hy Hp].
    constructor; [rewrite Hxy; exact Hy|exact (IH Hp)]. }
  pose proof (calculate_cache_efficiency_sample many_instant_one_slow) as Hc.
  rewrite Hds, (cache_efficiency_nonempty _ Hne) in Hc.
  rewrite <- Hds in Hne, Hpos.
  specialize (H _ _ Hne Hpos Hc).
  cbn [cache_hit_rate_estimate] in H. unfold len in H.
  rewrite (fast_count_proper _ _ _ _ (mean_proper _ _ H2) H2) in H.
  rewrite (Forall2_length _ _ _ H2) in H.
  vm_compute in H. discriminate H.
Qed.

(** C10, amended.  When the duration sample is not empty and holds no
    negative duration, the estimator returns with fast_builds strictly
    below total_builds, so fast/total*100 is strictly below 100; the
    reported rate, within 0.01 of it, is at most 100, and strictly
    below 100 when the sample has fewer than 20000 durations. *)
Theorem fast_builds_below_total (runs : list run) :
  Spec.duration_sample runs <> [] ->
  Forall (Qle 0) (Spec.duration_sample runs) ->
  exists (c : CacheMetrics) (fast total : nat),
    calculate_cache_efficiency runs = Ok c
    /\ fast_builds c = Some fast
    /\ total_builds c = Some total
    /\ total = length (Spec.duration_sample runs)
    /\ (fast < total)%nat
    /\ inject_Z (Z.of_nat fast) / inject_Z (Z.of_nat total) * 100 < 100
    /\ Qabs (cache_hit_rate_estimate c
             - inject_Z (Z.of_nat fast) / inject_Z (Z.of_nat total) * 100)
       <= 1 # 100
    /\ cache_hit_rate_estimate c <= 100
    /\ ((Z.of_nat total < 20000)%Z -> cache_hit_rate_estimate c < 100).
Proof.
  rewrite calculate_cache_efficiency_sample.
  generalize (Spec.duration_sample runs) as ds. intros ds Hne Hpos.
  pose proof (fast_count_lt ds Hne Hpos) as Hlt.
  set (fast := Spec.fast_count (Spec.mean ds) ds) in *.
  eexists. exists fast, (length ds).
  split; [apply cache_efficiency_nonempty; exact Hne|].
  cbn [cache_hit_rate_estimate fast_builds total_builds]. fold fast.
  unfold len.
  split; [reflexivity|]. split; [reflexivity|]. split; [reflexivity|].
  split; [exact Hlt|].
  assert (Hn : 0 < inject_Z (Z.of_nat (length ds))).
  { destruct ds as [|d tl]; [congruence|]. apply (len_pos d tl). }
  assert (HF : 0 <= inject_Z (Z.of_nat fast)).
  { change 0 with (inject_Z 0). rewrite <- Zle_Qle. lia. }
  assert (HFT : inject_Z (Z.of_nat fast) + 1 <= inject_Z (Z.of_nat (length ds))).
  { change 1 with (inject_Z 1). rewrite <- inject_Z_plus, <- Zle_Qle. lia. }
  set (F := inject_Z (Z.of_nat fast)) in *.
  set (T := inject_Z (Z.of_nat (length ds))) in *.
  assert (Hq : F / T < 1).
  { apply Qlt_shift_div_r; lra. }
  assert (Hsmall : (Z.of_nat (length ds) < 20000)%Z -> F / T < 99995 # 100000).
  { intros Hs.
    assert (HT : T <= 19999).
    { unfold T. change 19999 with (inject_Z 19999). rewrite <- Zle_Qle. lia. }
    apply Qlt_shift_div_r; lra. }
  set (q := F / T) in *.
  split; [lra|]. split; [apply round2_near|].
  split.
  - apply round2_le_100. lra.
  - intros Hs. apply round2_lt_100. specialize (Hsmall Hs). lra.
Qed.

Lemma fast_builds_below_total_witness :
  exists (c : CacheMetrics) (fast total : nat),
    calculate_cache_efficiency nine_slow_one_fast = Ok c
    /\ fast_builds c = Some fast
    /\ total_builds c = Some total
    /\ (fast < total)%nat
    /\ cache_hit_rate_estimate c < 100.
Proof.
  assert (Hpos : Forall (Qle 0) (Spec.duration_sample nine_slow_one_fast))
    by (vm_compute; repeat constructor; discriminate).
  destruct (fast_builds_below_total nine_slow_one_fast
              ltac:(discriminate) Hpos)
    as (c & fast & total & Hc & Hf & Ht & Hl & Hlt & _ & _ & _ & Hsmall).
  exists c, fast, total. repeat split; try assumption.
  apply Hsmall. rewrite Hl. reflexivity.
Defined.

End CacheClaims.

(** ** Claims on the recommendations *)

Section RecommendationClaims.
Import BuildAnalytics Examples.

(** What [generate_recommendations] returns: the cache advisory always
    closes the list, after the advisories of the two metric rules. *)
Lemma recommendations_shape (metrics : BuildMetrics) :
  generate_recommendations metrics
  = Ok ((if ltb (success_rate metrics) 90
         then [InvestigateFailures (success_rate metrics)] else [])
        ++ (if gtb (avg_duration_minutes metrics) 15
            then [OptimizeBuildTime (avg_duration_minutes metrics)] else [])
        ++ [ReviewCachingStrategy]).
Proof.
  unfold generate_recommendations.
  change (calculate_cache_efficiency [])
    with (Ok {| cache_hit_rate_estimate := 0;
                fast_builds := None;
                total_builds := None;
                note := "No data available" |}).
  cbn [bind cache_hit_rate_estimate].
  change (ltb 0 80) with true. cbv iota.
  destruct (ltb (success_rate metrics) 90),
           (gtb (avg_duration_minutes metrics) 15); reflexivity.
Qed.

(** C2.  The code does not take a cache estimate: it evaluates the
    estimator on the empty list, reads the rate 0 and so always emits
    the review-caching-strategy advisory and never the "all metrics
    within acceptable ranges" message.  On ten successful runs (nine
    of two minutes, one of thirty) the success rate is 100, the average
    duration 4.8 minutes and the estimated cache hit rate 90, yet the
    answer is the cache advisory alone. *)
Theorem recommendations_ignore_cache_estimate :
  (forall metrics : BuildMetrics,
     exists recs : list recommendation,
       generate_recommendations metrics = Ok recs
       /\ ReviewCachingStrategy ∈ recs
       /\ AllWithinRange ∉ recs)
  /\ (exists (m : BuildMetrics) (c : CacheMetrics),
        analyze_build_performance healthy_runs = Ok m
        /\ calculate_cache_efficiency healthy_runs = Ok c
        /\ success_rate m == 100
        /\ avg_duration_minutes m == 48 # 10
        /\ cache_hit_rate_estimate c == 90
        /\ generate_recommendations m = Ok [ReviewCachingStrategy]).
Proof.
  split.
  - intros metrics. eexists. split; [apply recommendations_shape|].
    destruct (ltb (success_rate metrics) 90),
             (gtb (avg_duration_minutes metrics) 15);
      cbn [app]; split;
      rewrite ?elem_of_cons, ?elem_of_nil; intuition congruence.
  - destruct (analyze_ok healthy_runs) as (m & Hm & _ & _ & _ & Hr & Ha & _).
    exists m. eexists. split; [exact Hm|].
    split; [vm_compute; reflexivity|].
    split; [rewrite Hr; vm_compute; reflexivity|].
    split; [rewrite Ha; vm_compute; reflexivity|].
    split; [vm_compute; reflexivity|].
    rewrite recommendations_shape, Hr, Ha. reflexivity.
Qed.

End RecommendationClaims.

(** * Further properties of the cost calculator *)

Section CostTable.
Import CostCalculator.

Lemma pricing_positive (t : string) (p : Q) : pricing !! t = Some p -> 0 < p.
Proof.
  assert (H : map_Forall (fun _ q => 0 < q) pricing).
  { unfold pricing.
    repeat (apply map_Forall_insert_2; [reflexivity|]).
    apply map_Forall_empty. }
  apply H.
Qed.

(** X1.  The cost dictionary has exactly the requested instance types as
    keys, and a requested type that the table prices costs its hourly
    price times the hours. *)
Theorem costs_keys_and_prices (ts : list string) (hours : Q) :
  dom (calculate_gpu_instance_costs ts hours) = list_to_set ts
  /\ (forall t, calculate_gpu_instance_costs ts hours !! t = None <-> t ∉ ts)
  /\ (forall t p,
        t ∈ ts -> pricing !! t = Some p ->
        calculate_gpu_instance_costs ts hours !! t = Some (Num (p * hours))).
Proof.
  assert (Hnone : forall t,
             calculate_gpu_instance_costs ts hours !! t = None <-> t ∉ ts).
  { intros t. unfold calculate_gpu_instance_costs. rewrite costs_lookup_from.
    destruct (decide (t ∈ ts)) as [Hin|Hin].
    - split; [discriminate|contradiction].
    - rewrite lookup_empty. tauto. }
  split; [|split].
  - apply set_eq. intros t.
    rewrite elem_of_dom, elem_of_list_to_set, <- not_eq_None_Some, Hnone.
    destruct (decide (t ∈ ts)); tauto.
  - exact Hnone.
  - intros t p Hin Hp. rewrite costs_lookup by exact Hin.
    unfold cost_entry. now rewrite Hp.
Qed.

(** X2.  The cost dictionary does not depend on the order of the requested
    types nor on how often one is repeated. *)
Theorem costs_order_independent (ts ts' : list string) (hours : Q) :
  (forall t, t ∈ ts <-> t ∈ ts') ->
  calculate_gpu_instance_costs ts hours = calculate_gpu_instance_costs ts' hours.
Proof.
  intros Hsame. apply map_eq. intros t.
  unfold calculate_gpu_instance_costs. rewrite !costs_lookup_from.
  destruct (decide (t ∈ ts)) as [Hin|Hin], (decide (t ∈ ts')) as [Hin'|Hin'];
    try reflexivity; exfalso; apply Hsame in Hin || apply Hsame in Hin';
    contradiction.
Qed.

Lemma costs_order_independent_witness :
  calculate_gpu_instance_costs ["g5.xlarge"; "p9.huge"; "g5.xlarge"] 3
  = calculate_gpu_instance_costs ["p9.huge"; "g5.xlarge"] 3.
Proof.
  apply (costs_order_independent ["g5.xlarge"; "p9.huge"; "g5.xlarge"]
                                 ["p9.huge"; "g5.xlarge"] 3).
  intros t. rewrite !elem_of_cons, elem_of_nil. tauto.
Defined.

End CostTable.

Section UtilizationFurther.
Import CostCalculator.

Lemma utilization_improvement_raises (b o : Q) :
  b == 0 \/ b == 1 \/ o == 0 ->
  calculate_utilization_improvement b o = Raise ZeroDivisionError.
Proof.
  intros Hbad. unfold calculate_utilization_improvement.
  destruct (Qeq_dec b 0) as [Hb0|Hb0]; [now rewrite div_zero|].
  rewrite !(div_ok _ b) by assumption. cbn [bind].
  destruct (Qeq_dec b 1) as [Hb1|Hb1].
  { rewrite div_zero by (rewrite Hb1; lra). reflexivity. }
  rewrite (div_ok _ (1 - b)) by (intros H; apply Hb1; lra). cbn [bind].
  destruct Hbad as [H|[H|Ho]]; [contradiction ..|].
  rewrite div_zero; [reflexivity|]. rewrite Ho. field. assumption.
Qed.

(** X3.  An optimized utilization of 0 raises ZeroDivisionError (through
    1 / cost_efficiency on line 82), as a baseline of 0 or 1 does; so a
    record is returned only when none of the three is the case, and
    ZeroDivisionError is the only exception raised. *)
Theorem utilization_outcome (b o : Q) :
  (b == 0 \/ b == 1 \/ o == 0 ->
   calculate_utilization_improvement b o = Raise ZeroDivisionError)
  /\ (forall u, calculate_utilization_improvement b o = Ok u ->
        ~ b == 0 /\ ~ b == 1 /\ ~ o == 0)
  /\ (forall e, calculate_utilization_improvement b o = Raise e ->
        e = ZeroDivisionError).
Proof.
  split; [apply utilization_improvement_raises|].
  split; [apply utilization_improvement_inv|].
  intros e He.
  destruct (Qeq_dec b 0) as [Hb0|Hb0];
    [|destruct (Qeq_dec b 1) as [Hb1|Hb1];
      [|destruct (Qeq_dec o 0) as [Ho|Ho]]].
  1-3: rewrite (utilization_improvement_raises b o) in He by tauto;
       now injection He as <-.
  rewrite (utilization_improvement_ok b o Hb0 Hb1 Ho) in He. discriminate.
Qed.

(** X4.  For a baseline strictly between 0 and 1, the improvement
    percentage is positive exactly when the optimized utilization
    exceeds the baseline and 0 exactly when the two are equal; the
    idle-time reduction is positive only when the optimized utilization
    exceeds the baseline, and is then never negative. *)
Theorem utilization_signs (b o : Q) (u : UtilizationImprovement) :
  0 < b -> b < 1 ->
  calculate_utilization_improvement b o = Ok u ->
  (0 < utilization_improvement_percent u <-> b < o)
  /\ (utilization_improvement_percent u == 0 <-> o == b)
  /\ (0 < idle_time_reduction_percent u -> b < o)
  /\ (b < o -> 0 <= idle_time_reduction_percent u).
Proof.
  intros Hb0 Hb1 Hu.
  destruct (utilization_improvement_inv b o u Hu) as (Nb0 & Nb1 & No).
  rewrite (utilization_improvement_ok b o Nb0 Nb1 No) in Hu.
  injection Hu as <-. cbn.
  set (x := (o - b) / b).
  assert (Hx : x * b == o - b) by (unfold x; field; lra).
  set (y := (1 - o) / (1 - b)).
  assert (Hy : y * (1 - b) == 1 - o) by (unfold y; field; lra).
  split; [split; intros H; nra|].
  split; [split; intros H; nra|].
  split; intros H; nra.
Qed.

Lemma utilization_signs_witness :
  exists u : UtilizationImprovement,
    calculate_utilization_improvement (55 # 100) (85 # 100) = Ok u
    /\ 0 < utilization_improvement_percent u
    /\ 0 <= idle_time_reduction_percent u.
Proof.
  eexists. split; [reflexivity|].
  destruct (utilization_signs (55 # 100) (85 # 100) _
              eq_refl eq_refl eq_refl) as (H1 & _ & _ & H2).
  split; [apply H1|apply H2]; reflexivity.
Defined.

End UtilizationFurther.

Section ROIFurther.
Import CostCalculator.

(** X6.  A payback period that is finite comes from positive monthly
    savings, and it is at most one month exactly when the net monthly
    savings (savings less the operating cost of 50) are not negative. *)
Theorem roi_break_even (spend ui : Q) (r : ROIAnalysis) (m : Q) :
  generate_roi_analysis spend ui = Ok r ->
  payback_period_months r = Fin m ->
  0 < monthly_savings r
  /\ (m <= 1 <-> 0 <= net_monthly_savings r).
Proof.
  intros Hr Hm.
  destruct (roi_analysis_ok spend ui)
    as (r' & Hr' & _ & _ & _ & _ & Hn & Hp & _).
  rewrite Hr in Hr'. injection Hr' as <-.
  rewrite Hp in Hm.
  destruct (gtb (monthly_savings r) 0) eqn:G; [|discriminate].
  apply gtb_gt in G. injection Hm as <-.
  split; [exact G|]. rewrite Hn.
  set (s := monthly_savings r) in *.
  assert (Hq : 50 / s * s == 50) by (field; lra).
  set (q := 50 / s) in *.
  split; intros H; nra.
Qed.

Lemma roi_break_even_witness :
  exists (r : ROIAnalysis) (m : Q),
    generate_roi_analysis 10000 (600 # 11) = Ok r
    /\ payback_period_months r = Fin m
    /\ m <= 1 /\ 0 <= net_monthly_savings r.
Proof.
  destruct (roi_analysis_ok 10000 (600 # 11))
    as (r & Hr & _ & _ & _ & _ & _ & Hp & _).
  assert (Hg : gtb (monthly_savings r) 0 = true).
  { revert Hr. vm_compute. intros [= <-]. reflexivity. }
  rewrite Hg in Hp.
  destruct (roi_break_even 10000 (600 # 11) r _ Hr Hp) as [_ Hiff].
  assert (Hle : 50 / monthly_savings r <= 1).
  { revert Hr. vm_compute. intros [= <-]. discriminate. }
  exists r, (50 / monthly_savings r).
  split; [exact Hr|]. split; [exact Hp|]. split; [exact Hle|].
  now apply Hiff.
Defined.

End ROIFurther.

Section DemoReportFurther.
Import CostCalculator CostMain.

(** The report of a configuration with a priced instance type and
    utilization figures that allow the divisions. *)
Lemma demo_report_returns (cfg : DemoConfig) (p : Q) :
  let b := default 55 (baseline_utilization cfg) in
  let o := default 85 (optimized_utilization cfg) in
  pricing !! default "g4dn.xlarge" (instance_type cfg) = Some p ->
  ~ b == 0 -> ~ b == 100 -> ~ o == 0 ->
  exists r : DemoReport,
    generate_demo_report cfg = Ok r
    /\ demo_info r = cfg
    /\ performance_improvements r
       = {| utilization_improvement_percent := (o / 100 - b / 100) / (b / 100) * 100;
            cost_efficiency_multiplier := o / 100 / (b / 100);
            idle_time_reduction_percent :=
              (1 - (1 - o / 100) / (1 - b / 100)) * 100;
            effective_cost_per_work_unit := 1 / (o / 100 / (b / 100)) |}
    /\ generate_roi_analysis (default 10000 (monthly_gpu_spend cfg))
         ((o / 100 - b / 100) / (b / 100) * 100)
       = Ok (roi_analysis r).
Proof.
  intros b o Hp Hb0 Hb1 Ho. unfold generate_demo_report.
  rewrite (demo_costs_known cfg p Hp). cbn [bind]. fold b o.
  rewrite (div_ok b 100) by lra. cbn [bind].
  rewrite (div_ok o 100) by lra. cbn [bind].
  rewrite utilization_improvement_ok.
  - cbn [bind utilization_improvement_percent].
    destruct (roi_analysis_ok (default 10000 (monthly_gpu_spend cfg))
                ((o / 100 - b / 100) / (b / 100) * 100)) as (r & Hr & _).
    rewrite Hr. cbn [bind]. eexists. split; [reflexivity|]. cbn. auto.
  - intros H. apply Hb0. apply percent_eq in H. rewrite H. ring.
  - intros H. apply Hb1. apply percent_eq in H. rewrite H. ring.
  - intros H. apply Ho. apply percent_eq in H. rewrite H. ring.
Qed.

Lemma demo_report_division (cfg : DemoConfig) (p : Q) :
  let b := default 55 (baseline_utilization cfg) in
  let o := default 85 (optimized_utilization cfg) in
  pricing !! default "g4dn.xlarge" (instance_type cfg) = Some p ->
  b == 0 \/ b == 100 \/ o == 0 ->
  generate_demo_report cfg = Raise ZeroDivisionError.
Proof.
  intros b o Hp Hbad. unfold generate_demo_report.
  rewrite (demo_costs_known cfg p Hp). cbn [bind]. fold b o.
  rewrite (div_ok b 100) by lra. cbn [bind].
  rewrite (div_ok o 100) by lra. cbn [bind].
  rewrite utilization_improvement_raises; [reflexivity|].
  destruct Hbad as [H|[H|H]]; [left|right; left|right; right];
    rewrite H; reflexivity.
Qed.

(** X7.  How [generate_demo_report] ends, for a node count of at most
    a million.  It raises TypeError exactly when the instance type is
    not in the pricing table, whatever the utilization figures (the
    cost block runs first); for a priced type it raises
    ZeroDivisionError when the baseline is 0 or 100 or the optimized
    utilization is 0; so a report is returned only for a priced type
    with none of the three, and no other exception is raised. *)
Theorem demo_report_outcome (cfg : DemoConfig) :
  let t := default "g4dn.xlarge" (instance_type cfg) in
  let b := default 55 (baseline_utilization cfg) in
  let o := default 85 (optimized_utilization cfg) in
  (Z.abs (default 2 (node_count cfg)) <= 1000000)%Z ->
  (generate_demo_report cfg = Raise TypeError <-> pricing !! t = None)
  /\ (is_Some (pricing !! t) -> b == 0 \/ b == 100 \/ o == 0 ->
      generate_demo_report cfg = Raise ZeroDivisionError)
  /\ (forall r, generate_demo_report cfg = Ok r ->
        is_Some (pricing !! t) /\ ~ b == 0 /\ ~ b == 100 /\ ~ o == 0)
  /\ (forall e, generate_demo_report cfg = Raise e ->
        e = TypeError \/ e = ZeroDivisionError).
Proof.
  intros t b o _.
  destruct (pricing !! t) as [p|] eqn:Hp.
  - destruct (Qeq_dec b 0) as [Hb0|Hb0];
      [|destruct (Qeq_dec b 100) as [Hb1|Hb1];
        [|destruct (Qeq_dec o 0) as [Ho|Ho]]].
    1-3: rewrite (demo_report_division cfg p Hp) by (fold b o; tauto);
         split; [split; discriminate|];
         split; [reflexivity|];
         split; [discriminate|];
         intros e [= <-]; now right.
    destruct (demo_report_returns cfg p Hp Hb0 Hb1 Ho) as (r & Hr & _).
    rewrite Hr.
    split; [split; discriminate|].
    split; [tauto|].
    split; [intros _ _; split; [eauto|tauto]|discriminate].
  - assert (Hr : generate_demo_report cfg = Raise TypeError).
    { unfold generate_demo_report.
      now rewrite (demo_costs_unknown cfg Hp). }
    rewrite Hr.
    split; [tauto|].
    split; [intros [x Hx]; discriminate|].
    split; [discriminate|].
    intros e [= <-]. now left.
Qed.

Lemma demo_report_outcome_witness :
  generate_demo_report
    {| duration_hours := None; instance_type := None; node_count := None;
       baseline_utilization := Some 100; optimized_utilization := None;
       monthly_gpu_spend := None |}
  = Raise ZeroDivisionError.
Proof.
  destruct (demo_report_outcome
              {| duration_hours := None; instance_type := None;
                 node_count := None;
                 baseline_utilization := Some 100;
                 optimized_utilization := None;
                 monthly_gpu_spend := None |})
    as (_ & H & _); [vm_compute; discriminate|].
  apply H; [vm_compute; eauto|right; left; reflexivity].
Defined.

End DemoReportFurther.

Section DemoCostsFurther.
Import CostCalculator CostMain.

(** X10.  For a priced instance type, hours that are not negative and
    between one and a million nodes, the GPU and control-plane costs
    are not negative, the flat costs are 5, 2 and 3, and the total is
    at least the GPU cost and at least 10 (every price of the table is
    positive). *)
Theorem demo_cost_total (cfg : DemoConfig) (p : Q) :
  let hours := default 8 (duration_hours cfg) in
  let nodes := default 2%Z (node_count cfg) in
  pricing !! default "g4dn.xlarge" (instance_type cfg) = Some p ->
  0 <= hours -> (1 <= nodes <= 1000000)%Z ->
  exists (c : InfrastructureCosts) (g : Q),
    demo_infrastructure_costs cfg = Ok c
    /\ gpu_instances c = Num g
    /\ 0 <= g
    /\ 0 <= eks_control_plane c
    /\ monitoring_stack c = 5 /\ networking c = 2 /\ storage c = 3
    /\ g <= total c
    /\ 10 <= total c.
Proof.
  intros hours nodes Hp Hh Hn.
  pose proof (pricing_positive _ _ Hp) as Hpos.
  rewrite (demo_costs_known cfg p Hp). fold hours nodes.
  eexists. eexists. split; [reflexivity|]. cbn.
  assert (HN : 0 <= inject_Z nodes).
  { change 0 with (inject_Z 0). rewrite <- Zle_Qle. lia. }
  set (n := inject_Z nodes) in *.
  assert (Hg : 0 <= p * hours * n).
  { apply Qmult_le_0_compat; [apply Qmult_le_0_compat; lra|exact HN]. }
  set (g := p * hours * n) in *.
  split; [reflexivity|]. split; [exact Hg|].
  split; [lra|].
  split; [reflexivity|]. split; [reflexivity|]. split; [reflexivity|].
  change (p * hours * inject_Z nodes) with g.
  clearbody g. split; lra.
Qed.

Lemma demo_cost_total_witness :
  exists c : InfrastructureCosts,
    demo_infrastructure_costs default_demo_config = Ok c
    /\ 10 <= total c.
Proof.
  destruct (demo_cost_total default_demo_config (526 # 1000) eq_refl)
    as (c & g & Hc & _ & _ & _ & _ & _ & _ & _ & Ht);
    [discriminate|split; discriminate|].
  exists c. split; [exact Hc|exact Ht].
Defined.

(** Two configurations whose six settings read the same (stated or
    defaulted) give the same calculations, or raise the same
    exception. *)
Lemma demo_report_reads (c1 c2 : DemoConfig) :
  default 8 (duration_hours c1) = default 8 (duration_hours c2) ->
  default "g4dn.xlarge" (instance_type c1)
  = default "g4dn.xlarge" (instance_type c2) ->
  default 2%Z (node_count c1) = default 2%Z (node_count c2) ->
  default 55 (baseline_utilization c1) = default 55 (baseline_utilization c2) ->
  default 85 (optimized_utilization c1) = default 85 (optimized_utilization c2) ->
  default 10000 (monthly_gpu_spend c1) = default 10000 (monthly_gpu_spend c2) ->
  match generate_demo_report c1, generate_demo_report c2 with
  | Ok r1, Ok r2 =>
      infrastructure_costs r1 = infrastructure_costs r2
      /\ performance_improvements r1 = performance_improvements r2
      /\ roi_analysis r1 = roi_analysis r2
  | Raise e1, Raise e2 => e1 = e2
  | _, _ => False
  end.
Proof.
  intros H1 H2 H3 H4 H5 H6.
  unfold generate_demo_report, demo_infrastructure_costs.
  rewrite H1, H2, H3, H4, H5, H6.
  repeat match goal with
         | |- context [bind ?m _] => destruct m; cbn [bind]
         end;
    auto.
Qed.

(** X11.  [main] with a configuration file reports the calculations that
    [generate_demo_report] makes of the file alone, or raises the same
    exception, as long as the file sets monthly_gpu_spend or the
    command line leaves --monthly-spend at 10000: the defaults that
    [main] writes into the configuration are those that the report
    would read for a missing key. *)
Theorem main_defaults_agree (monthly_spend : Q) (custom : DemoConfig) :
  is_Some (monthly_gpu_spend custom) \/ monthly_spend = 10000 ->
  match generate_demo_report custom, main_report monthly_spend (Some custom) with
  | Ok r1, Ok r2 =>
      infrastructure_costs r1 = infrastructure_costs r2
      /\ performance_improvements r1 = performance_improvements r2
      /\ roi_analysis r1 = roi_analysis r2
  | Raise e1, Raise e2 => e1 = e2
  | _, _ => False
  end.
Proof.
  intros Hspend. unfold main_report. cbv zeta.
  apply demo_report_reads; unfold update, main_demo_config; cbn;
    try (match goal with
         | |- context [update_key _ ?o] => destruct o; reflexivity
         end).
  destruct Hspend as [[s Hs]| ->].
  - rewrite Hs. reflexivity.
  - destruct (monthly_gpu_spend custom); reflexivity.
Qed.

Lemma main_defaults_agree_witness :
  match generate_demo_report
          {| duration_hours := Some 4; instance_type := Some "p3.2xlarge";
             node_count := None; baseline_utilization := Some 40;
             optimized_utilization := None; monthly_gpu_spend := None |},
        main_report 10000
          (Some {| duration_hours := Some 4; instance_type := Some "p3.2xlarge";
                   node_count := None; baseline_utilization := Some 40;
                   optimized_utilization := None; monthly_gpu_spend := None |})
  with
  | Ok r1, Ok r2 => total (infrastructure_costs r1) = total (infrastructure_costs r2)
  | _, _ => False
  end.
Proof.
  pose proof (main_defaults_agree 10000
    {| duration_hours := Some 4; instance_type := Some "p3.2xlarge";
       node_count := None; baseline_utilization := Some 40;
       optimized_utilization := None; monthly_gpu_spend := None |}
    (or_intror eq_refl)) as H.
  revert H.
  destruct (generate_demo_report _) as [r1|e1] eqn:E1;
    [|vm_compute in E1; discriminate E1].
  destruct (main_report 10000 _) as [r2|e2]; [|intros []].
  intros (Hc & _). now rewrite Hc.
Defined.

End DemoCostsFurther.

(** * Further properties of the build analytics *)

Section RoundingOrder.

Lemma Qcompare_cases (a b : Q) :
  match Qcompare a b with
  | Eq => a == b
  | Lt => a < b
  | Gt => b < a
  end.
Proof.
  destruct (Qcompare a b) eqn:C.
  - now apply Qeq_alt.
  - now apply Qlt_alt.
  - now apply Qgt_alt.
Qed.

(** Rounding keeps the order. *)
Lemma round_half_even_mono (x y : Q) :
  x <= y -> (round_half_even x <= round_half_even y)%Z.
Proof.
  intros Hxy.
  pose proof (Qfloor_resp_le x y Hxy) as Hf.
  destruct (Z.eq_dec (Qfloor x) (Qfloor y)) as [E|E].
  - unfold round_half_even. cbv zeta. rewrite <- E.
    pose proof (Qcompare_cases (x - inject_Z (Qfloor x)) (1 # 2)) as Cx.
    pose proof (Qcompare_cases (y - inject_Z (Qfloor x)) (1 # 2)) as Cy.
    destruct (Qcompare (x - inject_Z (Qfloor x)) (1 # 2));
      destruct (Qcompare (y - inject_Z (Qfloor x)) (1 # 2));
      try (exfalso; lra);
      destruct (Z.even (Qfloor x)); lia.
  - destruct (round_half_even_cases x) as [[-> _]|[-> _]];
      destruct (round_half_even_cases y) as [[-> _]|[-> _]]; lia.
Qed.

Lemma round2_mono (x y : Q) : x <= y -> round2 x <= round2 y.
Proof.
  intros Hxy. unfold round2.
  assert (H : (round_half_even (x * 100) <= round_half_even (y * 100))%Z)
    by (apply round_half_even_mono; lra).
  rewrite Zle_Qle in H.
  unfold Qdiv. change (/ 100) with (1 # 100). lra.
Qed.

(** Rounding sees the number, not the way its fraction is written. *)
Lemma round2_proper (x y : Q) : x == y -> round2 x == round2 y.
Proof.
  intros Hxy. apply Qle_antisym; apply round2_mono; rewrite Hxy; apply Qle_refl.
Qed.

Lemma round2_nonneg (x : Q) : 0 <= x -> 0 <= round2 x.
Proof.
  intros Hx. apply (Qle_trans _ (round2 0)); [discriminate|].
  now apply round2_mono.
Qed.



End RoundingOrder.

Section AggregatorFurther.
Import BuildAnalytics.

Lemma tally_failures (l : list run) (m : gmap string nat) :
  Forall (fun r => conclusion r = "failure") l ->
  fold_left tally l m
  = match l with
    | [] => m
    | _ :: _ => <["failure" := (length l + default O (m !! "failure"))%nat]> m
    end.
Proof.
  intros Hl. revert m. induction Hl as [|r tl Hr _ IH]; intros m; [reflexivity|].
  cbn [fold_left]. rewrite IH. unfold tally. rewrite Hr.
  destruct tl as [|r' tl']; [reflexivity|].
  rewrite lookup_insert_eq, insert_insert_eq.
  change (default O (Some (S (default O (m !! "failure")))))
    with (S (default O (m !! "failure"))).
  change (length (r :: r' :: tl')) with (S (length (r' :: tl'))).
  f_equal. lia.
Qed.

Lemma filter_failure_all (runs : list run) :
  Forall (fun r => conclusion r = "failure") (List.filter is_failure runs).
Proof.
  apply List.Forall_forall. intros r Hr.
  apply filter_In in Hr as [_ Hr]. now apply is_failure_spec.
Qed.

(** X12.  The failure-reason map has "failure" as its only possible key: it
    is empty when no run failed and otherwise maps "failure" to the
    number of failed runs. *)
Theorem failure_reasons_single_key (runs : list run) :
  exists m : BuildMetrics,
    analyze_build_performance runs = Ok m
    /\ (failed_runs m = O -> failure_reasons m = ∅)
    /\ ((0 < failed_runs m)%nat ->
        failure_reasons m = {["failure" := failed_runs m]})
    /\ (forall k n, failure_reasons m !! k = Some n ->
          k = "failure" /\ n = failed_runs m).
Proof.
  destruct (analyze_ok runs) as (m & Hm & _ & _ & Hf & _ & _ & _ & _ & Hfr).
  exists m. split; [exact Hm|].
  rewrite Hfr, Hf, (tally_failures _ ∅ (filter_failure_all runs)).
  destruct (List.filter is_failure runs) as [|r tl].
  - split; [reflexivity|]. split; [cbn; lia|].
    intros k n. rewrite lookup_empty. discriminate.
  - rewrite lookup_empty. cbn [default]. rewrite Nat.add_0_r.
    split; [discriminate|]. split; [reflexivity|].
    intros k n Hk. apply lookup_insert_Some in Hk.
    destruct Hk as [[<- <-]|[_ Hk]]; [auto|].
    rewrite lookup_empty in Hk. discriminate.
Qed.

(** Python's [min] and [max] return an element that bounds the others. *)
Lemma min_from_spec (d : Q) (tl : list Q) :
  min_from d tl ∈ d :: tl /\ Forall (Qle (min_from d tl)) (d :: tl).
Proof.
  unfold min_from. revert d. induction tl as [|x tl IH]; intros d.
  - cbn. split; [apply elem_of_cons; now left|].
    constructor; [apply Qle_refl|constructor].
  - cbn [fold_left]. destruct (ltb x d) eqn:L.
    + apply ltb_lt in L. destruct (IH x) as [Hin Hall]. split.
      * apply elem_of_cons. right. exact Hin.
      * apply Forall_cons in Hall as [Hx Htl].
        constructor; [lra|]. constructor; assumption.
    + apply ltb_ge in L. destruct (IH d) as [Hin Hall]. split.
      * apply elem_of_cons in Hin as [->|Hin];
          [apply elem_of_cons; now left|].
        apply elem_of_cons. right. apply elem_of_cons. now right.
      * apply Forall_cons in Hall as [Hd Htl].
        constructor; [exact Hd|]. constructor; [lra|exact Htl].
Qed.

Lemma max_from_spec (d : Q) (tl : list Q) :
  max_from d tl ∈ d :: tl
  /\ Forall (fun x => x <= max_from d tl) (d :: tl).
Proof.
  unfold max_from. revert d. induction tl as [|x tl IH]; intros d.
  - cbn. split; [apply elem_of_cons; now left|].
    constructor; [apply Qle_refl|constructor].
  - cbn [fold_left]. destruct (gtb x d) eqn:L.
    + apply gtb_gt in L. destruct (IH x) as [Hin Hall]. split.
      * apply elem_of_cons. right. exact Hin.
      * apply Forall_cons in Hall as [Hx Htl].
        constructor; [lra|]. constructor; assumption.
    + apply gtb_le in L. destruct (IH d) as [Hin Hall]. split.
      * apply elem_of_cons in Hin as [->|Hin];
          [apply elem_of_cons; now left|].
        apply elem_of_cons. right. apply elem_of_cons. now right.
      * apply Forall_cons in Hall as [Hd Htl].
        constructor; [exact Hd|]. constructor; [lra|exact Htl].
Qed.

(** X13.  The reported minimum duration is at most the reported
    maximum.  On a non-empty sample they are within 0.01 of the
    smallest and of the largest duration of the sample (they are these
    durations rounded to two decimals). *)
Theorem duration_stats_ordered (runs : list run) :
  exists m : BuildMetrics,
    analyze_build_performance runs = Ok m
    /\ min_duration_minutes m <= max_duration_minutes m
    /\ (Spec.duration_sample runs <> [] ->
        exists lo hi : Q,
          lo ∈ Spec.duration_sample runs /\ hi ∈ Spec.duration_sample runs
          /\ Forall (fun d => lo <= d /\ d <= hi) (Spec.duration_sample runs)
          /\ Qabs (min_duration_minutes m - lo) <= 1 # 100
          /\ Qabs (max_duration_minutes m - hi) <= 1 # 100).
Proof.
  destruct (analyze_ok runs)
    as (m & Hm & _ & _ & _ & _ & _ & Hmin & Hmax & _).
  exists m. split; [exact Hm|]. rewrite Hmin, Hmax.
  destruct (Spec.duration_sample runs) as [|d tl].
  - split; [apply Qle_refl|congruence].
  - destruct (min_from_spec d tl) as [Hlo_in Hlo].
    destruct (max_from_spec d tl) as [Hhi_in Hhi].
    assert (Hlh : min_from d tl <= max_from d tl).
    { apply Forall_cons in Hlo as [Hlo _].
      apply Forall_cons in Hhi as [Hhi _]. lra. }
    split; [now apply round2_mono|].
    intros _. exists (min_from d tl), (max_from d tl).
    split; [exact Hlo_in|]. split; [exact Hhi_in|].
    split; [|split; apply round2_near].
    apply List.Forall_forall. intros x Hx.
    rewrite List.Forall_forall in Hlo, Hhi. auto.
Qed.

(** X14.  The reported success rate lies between 0 and 100; it is 100 when
    every run of a non-empty input succeeded and 0 when none did. *)
Theorem success_rate_bounds (runs : list run) :
  exists m : BuildMetrics,
    analyze_build_performance runs = Ok m
    /\ 0 <= success_rate m <= 100
    /\ (runs <> [] -> successful_runs m = total_runs m -> success_rate m == 100)
    /\ (successful_runs m = O -> success_rate m == 0).
Proof.
  destruct (analyze_ok runs) as (m & Hm & Ht & Hs & _ & Hr & _).
  exists m. split; [exact Hm|]. rewrite Hr, Ht, Hs.
  destruct runs as [|r rs].
  - split; [split; [apply round2_nonneg|apply round2_le_100]; lra|].
    split; [congruence|]. intros _. now apply round2_zero.
  - pose proof (len_pos r rs) as Hn.
    pose proof (filter_length_le is_success (r :: rs)) as Hle.
    set (s := List.filter is_success (r :: rs)) in *.
    assert (Hs0 : 0 <= len s).
    { unfold len. change 0 with (inject_Z 0). rewrite <- Zle_Qle. lia. }
    assert (Hsn : len s <= len (r :: rs)).
    { unfold len. rewrite <- Zle_Qle. lia. }
    assert (Hq : 0 <= len s / len (r :: rs) /\ len s / len (r :: rs) <= 1).
    { split; [apply Qle_shift_div_l|apply Qle_shift_div_r]; lra. }
    split; [split; [apply round2_nonneg|apply round2_le_100]; lra|].
    split.
    + intros _ E. rewrite (round2_proper _ 100); [reflexivity|].
      unfold len. rewrite E. field. unfold len in Hn. lra.
    + intros E. apply round2_zero. unfold len at 1. rewrite E.
      change (inject_Z (Z.of_nat 0)) with 0. field. lra.
Qed.

End AggregatorFurther.

Section PipelineFurther.
Import BuildAnalytics AnalyticsMain.

(** X15.  Aggregating two batches of runs together adds their counts, and
    the duration sample of the whole is the sample of the first batch
    followed by that of the second. *)
Theorem aggregate_concatenation (runs1 runs2 : list run) :
  exists m1 m2 m : BuildMetrics,
    analyze_build_performance runs1 = Ok m1
    /\ analyze_build_performance runs2 = Ok m2
    /\ analyze_build_performance (runs1 ++ runs2) = Ok m
    /\ total_runs m = (total_runs m1 + total_runs m2)%nat
    /\ successful_runs m = (successful_runs m1 + successful_runs m2)%nat
    /\ failed_runs m = (failed_runs m1 + failed_runs m2)%nat
    /\ (forall d1 d2,
          cache_durations runs1 = Ok d1 -> cache_durations runs2 = Ok d2 ->
          cache_durations (runs1 ++ runs2) = Ok (d1 ++ d2)).
Proof.
  destruct (analyze_ok runs1) as (m1 & Hm1 & Ht1 & Hs1 & Hf1 & _).
  destruct (analyze_ok runs2) as (m2 & Hm2 & Ht2 & Hs2 & Hf2 & _).
  destruct (analyze_ok (runs1 ++ runs2)) as (m & Hm & Ht & Hs & Hf & _).
  exists m1, m2, m. repeat (split; [assumption|]).
  rewrite Ht, Hs, Hf, Ht1, Hs1, Hf1, Ht2, Hs2, Hf2.
  rewrite !List.filter_app, !length_app.
  repeat (split; [reflexivity|]).
  intros d1 d2. rewrite !cache_durations_sample, sample_app.
  now intros [= <-] [= <-].
Qed.

Lemma sample_full (runs : list run) :
  length (Spec.duration_sample runs) = length (List.filter is_success runs)
  <-> Forall (fun r => is_success r = true -> is_Some (Spec.duration r)) runs.
Proof.
  induction runs as [|r tl IH].
  - split; [constructor|reflexivity].
  - rewrite sample_cons, Forall_cons. simpl List.filter.
    pose proof (sample_le_successful tl) as Hle.
    destruct (is_success r) eqn:Hs.
    + destruct (Spec.duration r) as [d|]; cbn [length].
      * rewrite <- IH. split; [intros H; split; [eauto|lia]|intros [_ H]; lia].
      * split; [lia|]. intros [H _]. destruct (H eq_refl) as [x Hx].
        discriminate.
    + rewrite (duration_not_success r Hs), <- IH.
      split; [intros H; split; [discriminate|exact H]|tauto].
Qed.

(** X16.  The builds that the cache estimate counts are never more than the
    successful runs of the metrics, and as many exactly when every
    successful run has both timestamps; the fast builds are never more
    than the builds counted. *)
Theorem cache_total_le_successful
    (runs : list run) (m : BuildMetrics) (c : CacheMetrics) (fast total : nat) :
  analyze_build_performance runs = Ok m ->
  calculate_cache_efficiency runs = Ok c ->
  fast_builds c = Some fast -> total_builds c = Some total ->
  (fast <= total)%nat
  /\ (total <= successful_runs m)%nat
  /\ (total = successful_runs m <->
      forall r, r ∈ runs -> conclusion r = "success" ->
                is_Some (created_at r) /\ is_Some (updated_at r)).
Proof.
  intros Hm Hc Hf Ht.
  destruct (analyze_ok runs) as (m' & Hm' & _ & Hs & _).
  rewrite Hm in Hm'. injection Hm' as <-.
  rewrite calculate_cache_efficiency_sample in Hc.
  assert (Hne : Spec.duration_sample runs <> []).
  { intros E. rewrite E in Hc. injection Hc as <-. discriminate. }
  rewrite (cache_efficiency_nonempty _ Hne) in Hc. injection Hc as <-.
  cbn [fast_builds total_builds] in Hf, Ht.
  injection Hf as <-. injection Ht as <-.
  rewrite Hs.
  split; [apply fast_count_le|].
  split; [apply sample_le_successful|].
  rewrite sample_full, Forall_forall.
  split; intros H r Hin.
  - intros Hcs. apply is_success_spec in Hcs as Hsb.
    destruct (H r Hin Hsb) as [x Hx]. unfold Spec.duration in Hx.
    rewrite decide_True in Hx by exact Hcs.
    destruct (created_at r), (updated_at r); try discriminate; eauto.
  - intros Hsb. apply is_success_spec in Hsb.
    destruct (H r Hin Hsb) as [[cr Hcr] [up Hup]].
    unfold Spec.duration. rewrite decide_True by exact Hsb.
    rewrite Hcr, Hup. eauto.
Qed.

Lemma cache_total_le_successful_witness :
  exists (m : BuildMetrics) (c : CacheMetrics) (fast total : nat),
    analyze_build_performance Examples.one_fast_of_three = Ok m
    /\ calculate_cache_efficiency Examples.one_fast_of_three = Ok c
    /\ fast_builds c = Some fast /\ total_builds c = Some total
    /\ (fast <= total)%nat /\ (total <= successful_runs m)%nat.
Proof.
  destruct (analyze_ok Examples.one_fast_of_three) as (m & Hm & _).
  assert (Hc : calculate_cache_efficiency Examples.one_fast_of_three
               = Ok {| cache_hit_rate_estimate := 3333 # 100;
                       fast_builds := Some 1%nat;
                       total_builds := Some 3%nat;
                       note := "Estimated based on build duration variance" |})
    by (vm_compute; reflexivity).
  destruct (cache_total_le_successful _ m _ 1%nat 3%nat Hm Hc eq_refl eq_refl)
    as (H1 & H2 & _).
  eexists m, _, 1%nat, 3%nat. repeat split; try eassumption; reflexivity.
Defined.

End PipelineFurther.

Section EstimateFurther.
Import BuildAnalytics AnalyticsMain.

Lemma sum_all_equal (d : Q) (ds : list Q) :
  Forall (fun x => x == d) ds ->
  fold_right Qplus 0 ds == inject_Z (Z.of_nat (length ds)) * d.
Proof.
  induction 1 as [|x tl Hx _ IH].
  - cbn [fold_right length]. change (inject_Z (Z.of_nat 0)) with 0. ring.
  - cbn [fold_right length]. rewrite Nat2Z.inj_succ. unfold Z.succ.
    rewrite inject_Z_plus, IH, Hx. change (inject_Z 1) with 1. ring.
Qed.

Lemma fast_count_all_equal (m d : Q) (ds : list Q) :
  Forall (fun x => x == d) ds ->
  (d < (8 # 10) * m -> Spec.fast_count m ds = length ds)
  /\ ((8 # 10) * m <= d -> Spec.fast_count m ds = O).
Proof.
  induction 1 as [|x tl Hx _ [IH1 IH2]]; [split; reflexivity|].
  cbn [Spec.fast_count length].
  destruct (Qlt_le_dec x ((8 # 10) * m)) as [Hlt|Hge]; split; intros H.
  - now rewrite IH1.
  - exfalso. rewrite Hx in Hlt. lra.
  - exfalso. rewrite Hx in Hge. lra.
  - now apply IH2.
Qed.

(** X17.  When all durations of the sample are the same number, no build is
    fast and the rate is 0 if that number is not negative; if it is
    negative (a run updated before it was created) every build is fast
    and the rate is 100. *)
Theorem equal_durations_estimate (runs : list run) (d : Q) :
  Spec.duration_sample runs <> [] ->
  Forall (fun x => x == d) (Spec.duration_sample runs) ->
  exists c : CacheMetrics,
    calculate_cache_efficiency runs = Ok c
    /\ total_builds c = Some (length (Spec.duration_sample runs))
    /\ (0 <= d ->
        fast_builds c = Some O /\ cache_hit_rate_estimate c == 0)
    /\ (d < 0 ->
        fast_builds c = Some (length (Spec.duration_sample runs))
        /\ cache_hit_rate_estimate c == 100).
Proof.
  rewrite calculate_cache_efficiency_sample.
  generalize (Spec.duration_sample runs) as ds. intros ds Hne Hall.
  rewrite (cache_efficiency_nonempty ds Hne). eexists. split; [reflexivity|].
  cbn [cache_hit_rate_estimate fast_builds total_builds].
  split; [reflexivity|].
  assert (Hn : 0 < len ds).
  { destruct ds as [|x tl]; [congruence|]. apply len_pos. }
  assert (Hmean : Spec.mean ds == d).
  { unfold Spec.mean. rewrite (sum_all_equal d ds Hall). field.
    unfold len in Hn. lra. }
  destruct (fast_count_all_equal (Spec.mean ds) d ds Hall) as [Hall_fast Hnone].
  split; intros Hd.
  - rewrite Hnone by (rewrite Hmean; lra).
    split; [reflexivity|]. apply round2_zero.
    change (inject_Z (Z.of_nat 0)) with 0. field. lra.
  - rewrite Hall_fast by (rewrite Hmean; lra).
    split; [reflexivity|].
    rewrite (round2_proper _ 100); [reflexivity|].
    fold (len ds). field. lra.
Qed.

Lemma equal_durations_estimate_witness :
  exists c : CacheMetrics,
    calculate_cache_efficiency
      [ {| conclusion := "success";
           created_at := Some 120000000%Z; updated_at := Some 0%Z |};
        {| conclusion := "success";
           created_at := Some 120000000%Z; updated_at := Some 0%Z |} ] = Ok c
    /\ fast_builds c = Some 2%nat
    /\ total_builds c = Some 2%nat
    /\ cache_hit_rate_estimate c == 100.
Proof.
  destruct (equal_durations_estimate
              [ {| conclusion := "success";
                   created_at := Some 120000000%Z; updated_at := Some 0%Z |};
                {| conclusion := "success";
                   created_at := Some 120000000%Z; updated_at := Some 0%Z |} ]
              (-2) ltac:(discriminate)
              ltac:(vm_compute; repeat constructor))
    as (c & Hc & Ht & _ & Hneg).
  destruct (Hneg eq_refl) as [Hf Hr].
  exists c. repeat split; assumption.
Defined.

(** X18.  The two metric rules of [generate_recommendations] fire exactly on
    their comparisons, each advisory quoting the metric it compared;
    the list is a sub-sequence of (failures, build time, caching) in
    this order and has one to three elements. *)
Theorem recommendations_rules (m : BuildMetrics) :
  exists recs : list recommendation,
    generate_recommendations m = Ok recs
    /\ (InvestigateFailures (success_rate m) ∈ recs <-> success_rate m < 90)
    /\ (OptimizeBuildTime (avg_duration_minutes m) ∈ recs <->
        15 < avg_duration_minutes m)
    /\ (forall q, InvestigateFailures q ∈ recs -> q = success_rate m)
    /\ (forall q, OptimizeBuildTime q ∈ recs -> q = avg_duration_minutes m)
    /\ sublist recs [InvestigateFailures (success_rate m);
                     OptimizeBuildTime (avg_duration_minutes m);
                     ReviewCachingStrategy]
    /\ (1 <= length recs <= 3)%nat.
Proof.
  eexists. split; [apply recommendations_shape|].
  pose proof (ltb_lt (success_rate m) 90) as Hs.
  pose proof (gtb_gt (avg_duration_minutes m) 15) as Ha.
  destruct (ltb (success_rate m) 90), (gtb (avg_duration_minutes m) 15);
    cbn [app length];
    (split; [rewrite ?elem_of_cons, ?elem_of_nil; intuition congruence|]);
    (split; [rewrite ?elem_of_cons, ?elem_of_nil; intuition congruence|]);
    (split; [intros q; rewrite ?elem_of_cons, ?elem_of_nil;
             intuition congruence|]);
    (split; [intros q; rewrite ?elem_of_cons, ?elem_of_nil;
             intuition congruence|]);
    (split; [repeat constructor|lia]).
Qed.

End EstimateFurther.

Section MainFurther.
Import BuildAnalytics AnalyticsMain.


(** X20.  [main] after the fetch never fails on an exception of the three
    computations.  When no successful run has both timestamps (in
    particular when there is no run at all) it ends with exit status 1
    on the missing key 'fast_builds', before any recommendation is
    made or any file written; otherwise it saves the metrics, the
    cache estimate and the recommendations of the metrics. *)
Theorem main_outcome (runs : list run) :
  (Spec.duration_sample runs = [] ->
   main_after_fetch runs = Exit1 (KeyError "fast_builds"))
  /\ (Spec.duration_sample runs <> [] ->
      exists o : Output,
        main_after_fetch runs = Saved o
        /\ analyze_build_performance runs = Ok (metrics o)
        /\ calculate_cache_efficiency runs = Ok (cache o)
        /\ generate_recommendations (metrics o) = Ok (recommendations o))
  /\ (forall e, main_after_fetch runs <> Exit1 (Raised e)).
Proof.
  destruct (analyze_ok runs) as (m & Hm & _).
  unfold main_after_fetch. rewrite Hm.
  rewrite calculate_cache_efficiency_sample.
  destruct (Spec.duration_sample runs) as [|d tl] eqn:Hd.
  - cbn. split; [reflexivity|]. split; [congruence|]. discriminate.
  - rewrite cache_efficiency_ok.
    cbn [fast_builds total_builds].
    rewrite recommendations_shape.
    split; [discriminate|].
    split; [|discriminate].
    intros _. eexists. split; [reflexivity|].
    cbn [metrics cache recommendations].
    split; [reflexivity|]. split; [reflexivity|apply recommendations_shape].
Qed.

End MainFurther.
